(** * Alias settings of the account endpoint (app/controllers/api/v1/users.js)

    A shallow embedding of the controller: JavaScript values, the
    persistence layer the controller talks to (Aliases.findById,
    document set and save, lean reads with a populated domain) as a small
    state-and-error monad over the stored collections, and the controller
    functions serializeAliasSettings, getAliasContext,
    updateAliasSettingsForContext, retrieve and update.  The registration
    of a user, [create], shares nothing with these and is left out. *)

From Stdlib Require Import Ascii String.
From stdpp Require Import gmap strings list fin_maps pretty.

Local Set Warnings "-register-all".

(** ** JavaScript values *)

Module Js.

(** Numbers are the integers: the payloads and records of this controller
    carry page sizes, byte counts and quotas.  An object is a finite map
    from property names to values; a property may be present with the
    value [JUndefined]. *)
Inductive JsValue : Type :=
  | JUndefined
  | JNull
  | JBool (b : bool)
  | JNum (n : Z)
  | JStr (s : string)
  | JArr (l : list JsValue)
  | JObj (m : gmap string JsValue).

Abbreviation Obj := (gmap string JsValue).

(** [typeof v] *)
Definition typeof (v : JsValue) : string :=
  match v with
  | JUndefined => "undefined"
  | JNull => "object"
  | JBool _ => "boolean"
  | JNum _ => "number"
  | JStr _ => "string"
  | JArr _ => "object"
  | JObj _ => "object"
  end.

(** ToBoolean: the falsy values are undefined, null, false, 0 and the
    empty string. *)
Definition truthy (v : JsValue) : bool :=
  match v with
  | JUndefined | JNull => false
  | JBool b => b
  | JNum n => negb (Z.eqb n 0)
  | JStr s => negb (String.eqb s "")
  | JArr _ | JObj _ => true
  end.

(** [a || b] and [a && b] on values (the second operand has no effect
    of its own where this controller uses them). *)
Definition or_else (a b : JsValue) : JsValue := if truthy a then a else b.
Definition and_then (a b : JsValue) : JsValue := if truthy a then b else a.

(** [v === undefined], [v === null] *)
Definition is_undefined (v : JsValue) : bool :=
  match v with JUndefined => true | _ => false end.
Definition is_null (v : JsValue) : bool :=
  match v with JNull => true | _ => false end.

(** Own property lookup, [Object.prototype.hasOwnProperty.call(o, k)] and
    the read [o.k] of an object: a missing property reads as undefined. *)
Definition hasOwnProperty (o : Obj) (k : string) : bool :=
  bool_decide (is_Some (o !! k)).
Definition get (o : Obj) (k : string) : JsValue := default JUndefined (o !! k).

(** The read [v.k] of an arbitrary value, for the property names this
    controller reads (none of them is a built-in property of a string, a
    number, a boolean or an array): [None] is the TypeError of reading a
    property of undefined or null. *)
Definition prop (v : JsValue) (k : string) : option JsValue :=
  match v with
  | JUndefined | JNull => None
  | JObj m => Some (get m k)
  | _ => Some JUndefined
  end.

(** Optional chaining [v?.k]. *)
Definition opt_prop (v : JsValue) (k : string) : JsValue :=
  match prop v k with Some x => x | None => JUndefined end.

(** ToString, as a template literal applies it.  A number prints as its
    decimal digits, which is how JavaScript prints an integer of magnitude
    below 10^21, the range of the counts and sizes held here. *)
Fixpoint toString (v : JsValue) : string :=
  match v with
  | JUndefined => "undefined"
  | JNull => "null"
  | JBool true => "true"
  | JBool false => "false"
  | JNum n => pretty n
  | JStr s => s
  | JArr l =>
      String.concat ","
        (map (fun x => match x with
                       | JUndefined | JNull => ""
                       | _ => toString x
                       end) l)
  | JObj _ => "[object Object]"
  end.

(** [_.isString] *)
Definition isString (v : JsValue) : bool :=
  match v with JStr _ => true | _ => false end.

(** The own enumerable string-keyed properties a value offers to
    [_.pick]: those of an object.  null, undefined, the falsy primitives
    and an array (whose own keys are indices) offer none of the names
    picked here. *)
Definition own (v : JsValue) : Obj :=
  match v with JObj m => m | _ => ∅ end.

(** [_.pick(object, paths)] as lodash defines it (the controller takes
    [_] from #helpers/lodash): the object made of the properties of
    [object] named in [paths].  A property that is explicitly undefined is
    kept, and the result is built in the order of [paths], which is
    therefore the order in which [Object.entries] enumerates it. *)
Definition pick_entries (object : JsValue) (paths : list string)
  : list (string * JsValue) :=
  omap (fun k => pair k <$> own object !! k) paths.

Definition pick (object : JsValue) (paths : list string) : Obj :=
  list_to_map (pick_entries object paths).

End Js.

Import Js.

(** ** Errors, effects and the persistence layer *)

(** What the controller throws: the three Boom errors with the key of the
    translated message, the ValidationError with which [save] rejects a
    document (it lists the offending paths), and the TypeError of reading a
    property of undefined or null. *)
Inductive Error : Type :=
  | Boom_unauthorized (message : string)
  | Boom_badRequest (message : string)
  | Boom_notFound (message : string)
  | ValidationError (paths : list string)
  | TypeError.

(** The status of the response: Boom errors carry theirs, a
    ValidationError is answered as a bad request (src/test/api/v1-settings.js
    expects 400), anything else is a server error. *)
Definition status (e : Error) : Z :=
  match e with
  | Boom_unauthorized _ => 401
  | Boom_badRequest _ => 400
  | Boom_notFound _ => 404
  | ValidationError _ => 400
  | TypeError => 500
  end.

Definition client_error (e : Error) : bool :=
  bool_decide (400 ≤ status e < 500)%Z.

(** The calls made on the persistence layer and on the document in memory,
    in program order. *)
Inductive Event : Type :=
  | EvFindById (id : JsValue)
  | EvSet (key : string) (value : JsValue)
  | EvSave (id : string)
  | EvWrite (id : string).

(** The stored collections, and the log of calls. *)
Record World : Type := {
  aliases : gmap string Obj;
  domains : gmap string Obj;
  log : list Event
}.

(** A hydrated document as [Aliases.findById] returns it: the stored
    fields, changed in memory by [set], and the paths set since it was
    read. *)
Record Doc : Type := {
  doc_id : string;
  doc_fields : Obj;
  doc_modified : list string
}.

Definition M (A : Type) : Type := World → (Error + A) * World.

Definition ret {A} (a : A) : M A := fun w => (inr a, w).
Definition throw {A} (e : Error) : M A := fun w => (inl e, w).
Definition bind {A B} (m : M A) (k : A → M B) : M B :=
  fun w => match m w with
           | (inl e, w') => (inl e, w')
           | (inr a, w') => k a w'
           end.

Notation "'let!' x ':=' m 'in' k" := (bind m (fun x => k))
  (at level 10, x name, m at level 100, k at level 200).
Notation "'do!' m 'in' k" := (bind m (fun _ => k))
  (at level 10, m at level 100, k at level 200).

(** The world after further calls have been logged. *)
Definition logged (w : World) (events : list Event) : World :=
  {| aliases := aliases w; domains := domains w; log := log w ++ events |}.

Definition emit (e : Event) : M unit := fun w => (inr tt, logged w [e]).

(** A pure step that may throw, and a read that may be a TypeError. *)
Definition lift {A} (r : Error + A) : M A := fun w => (r, w).
Definition read {A} (o : option A) : M A :=
  match o with Some a => ret a | None => throw TypeError end.

(** [Aliases.findById(id)]: the document stored under the identifier, or
    null.  Identifiers are strings; nothing is stored under any other
    value. *)
Definition lookup_alias (w : World) (id : JsValue) : option Obj :=
  match id with JStr s => aliases w !! s | _ => None end.

Definition id_string (id : JsValue) : string :=
  match id with JStr s => s | _ => "" end.

Definition Aliases_findById (id : JsValue) : M (option Doc) :=
  do! emit (EvFindById id) in
  fun w => (inr ((fun o => {| doc_id := id_string id; doc_fields := o;
                              doc_modified := [] |}) <$> lookup_alias w id), w).

(** [.populate('domain', 'id name plan max_quota_per_alias')]: the
    reference is replaced by the projected domain, or by null when no such
    domain is stored.  (The populated [user] is not read by this
    controller and is left as stored.) *)
Definition domain_projection : list string :=
  ["id"; "name"; "plan"; "max_quota_per_alias"].

Definition populate_domain (w : World) (alias : Obj) : Obj :=
  match alias !! "domain" with
  | Some (JStr d) =>
      <["domain" := match domains w !! d with
                    | Some dom => JObj (pick (JObj dom) domain_projection)
                    | None => JNull
                    end]> alias
  | _ => alias
  end.

(** [Aliases.findById(id).populate(..).populate(..).lean().exec()] *)
Definition Aliases_findById_lean (id : JsValue) : M (option Obj) :=
  do! emit (EvFindById id) in
  fun w => (inr (populate_domain w <$> lookup_alias w id), w).

(** [alias.set(key, value)] on the document in memory. *)
Definition Doc_set (key : string) (value : JsValue) (d : Doc) : M Doc :=
  do! emit (EvSet key value) in
  ret {| doc_id := doc_id d;
         doc_fields := <[key := value]> (doc_fields d);
         doc_modified := doc_modified d ++ [key] |}.

(** The write of a validated document. *)
Definition write_alias (d : Doc) : M unit :=
  fun w => (inr tt, {| aliases := <[doc_id d := doc_fields d]> (aliases w);
                       domains := domains w;
                       log := log w ++ [EvWrite (doc_id d)] |}).

(** ** The Aliases schema *)

Module Schema.

(** Modelled from the spec: the closed set of page sizes accepted for
    [mail_messages_per_page].  The Aliases model, which holds it, is not
    part of the sources at hand; the members are those the spec names. *)
Definition accepted_page_sizes : list Z := [25; 50; 100]%Z.

Definition page_size_rule (v : JsValue) : bool :=
  match v with
  | JNum n => bool_decide (n ∈ accepted_page_sizes)
  | _ => false
  end.

Definition is_bool (v : JsValue) : bool :=
  match v with JBool _ => true | _ => false end.

Definition one_of (names : list string) (v : JsValue) : bool :=
  match v with JStr s => bool_decide (s ∈ names) | _ => false end.

Definition all_values (p : JsValue → bool) (m : Obj) : bool :=
  bool_decide (map_Forall (fun _ v => p v = true) m).

Definition all_keys (p : string → bool) (m : Obj) : bool :=
  bool_decide (map_Forall (fun k _ => p k = true) m).

Definition nonempty_string (v : JsValue) : bool :=
  match v with JStr s => negb (String.eqb s "") | _ => false end.

Definition saved_search (v : JsValue) : bool :=
  match v with
  | JObj m =>
      isString (get m "name") &&
      match get m "query" with
      | JStr q => bool_decide (String.length q ≤ 500)
      | _ => false
      end
  | _ => false
  end.

Definition in_range (lo hi : string) (c : ascii) : bool :=
  match lo, hi with
  | String a EmptyString, String b EmptyString =>
      bool_decide (nat_of_ascii a ≤ nat_of_ascii c ≤ nat_of_ascii b)
  | _, _ => false
  end.

Definition keyword_char (c : ascii) : bool :=
  in_range "A" "Z" c || in_range "a" "z" c || in_range "0" "9" c
  || Ascii.eqb c "_" || Ascii.eqb c "-".

Definition hex_char (c : ascii) : bool :=
  in_range "0" "9" c || in_range "A" "F" c || in_range "a" "f" c.

(** The keyword syntax [^[A-Za-z0-9_-]+$] and the colour syntax
    [#RRGGBB]. *)
Definition label_keyword (k : string) : bool :=
  negb (String.eqb k "") && forallb keyword_char (list_ascii_of_string k).

Definition label_color (v : JsValue) : bool :=
  match v with
  | JStr (String "#" digits) =>
      bool_decide (String.length digits = 6)
      && forallb hex_char (list_ascii_of_string digits)
  | _ => false
  end.

Definition label_definition (v : JsValue) : bool :=
  match v with
  | JObj m =>
      nonempty_string (get m "name") && label_color (get m "color")
      && (is_undefined (get m "hidden") || is_bool (get m "hidden"))
  | _ => false
  end.

(** Modelled from the spec: the rule of each settings field (section 4.3
    and 4.4), with the members of each enumeration that the spec names.
    The spec gives no rule for [appearance_layout_mode]. *)
Definition rule (path : string) (v : JsValue) : bool :=
  if decide (path = "appearance_theme") then
    one_of ["system"; "light"; "dark"] v
  else if decide (path = "mail_messages_per_page") then page_size_rule v
  else if decide (path = "mail_archive_folder") then is_null v || isString v
  else if decide (path = "prefetch_mode") then one_of ["default"; "custom"] v
  else if decide (path ∈ ["compose_plain_default"; "search_body_indexing";
                          "prefetch_enabled"; "security_remember_passphrase"])
  then is_bool v
  else if decide (path = "prefetch_folders") then
    match v with JArr l => forallb isString l | _ => false end
  else if decide (path = "search_saved_searches") then
    match v with JArr l => forallb saved_search l | _ => false end
  else if decide (path = "shortcuts") then
    match v with JObj m => all_values nonempty_string m | _ => false end
  else if decide (path = "aliases_defaults") then
    match v with JObj _ => true | _ => false end
  else if decide (path = "label_settings") then
    match v with
    | JObj m => all_keys label_keyword m && all_values label_definition m
    | _ => false
    end
  else true.

End Schema.

(** ** The controller *)

Module Users.

Definition ALIAS_SETTINGS_FIELDS : list string :=
  [ "appearance_theme";
    "appearance_layout_mode";
    "compose_plain_default";
    "mail_messages_per_page";
    "mail_archive_folder";
    "search_body_indexing";
    "search_saved_searches";
    "prefetch_enabled";
    "prefetch_folders";
    "prefetch_mode";
    "shortcuts";
    "label_settings";
    "security_remember_passphrase";
    "aliases_defaults" ].

(** [if (!settings.k) settings.k = {}] *)
Definition default_empty (k : string) (settings : Obj) : Obj :=
  if negb (truthy (get settings k)) then <[k := JObj ∅]> settings
  else settings.

Definition serializeAliasSettings (alias : Obj) : Obj :=
  let settings := pick (JObj alias) ALIAS_SETTINGS_FIELDS in
  let settings := default_empty "shortcuts" settings in
  let settings := default_empty "label_settings" settings in
  let settings := default_empty "aliases_defaults" settings in
  settings.

(** The request context: [ctx.state], [ctx.locale] and
    [ctx.request.body]. *)
Record Ctx : Type := {
  ctx_state : JsValue;
  ctx_locale : JsValue;
  ctx_request_body : JsValue
}.

Record AliasContext : Type := {
  aliasId : JsValue;
  domainName : JsValue;
  aliasEmail : JsValue
}.

(** [ctx.state?.session?.db], the mark of an alias session. *)
Definition alias_session (ctx : Ctx) : bool :=
  truthy (opt_prop (opt_prop (ctx_state ctx) "session") "db").

Section Controller.

(** What the controller takes from its collaborators:
    [mongoose.isValidObjectId], the rule with which the Aliases schema
    validates the value of a path when a document is saved,
    [config.maxQuotaPerAlias], the two field names
    [config.passport.fields.givenName] and [familyName], and the [save] of
    the user document. *)
Variable isValidObjectId : JsValue → bool.
Variable validate_path : string → JsValue → bool.
Variable config_maxQuotaPerAlias : JsValue.
Variables givenName familyName : string.
Variable Users_save : Obj → Error + Obj.

(** [alias.save()]: the paths set on the document are validated, and the
    document is written only when all of them pass. *)
Definition invalid_paths (d : Doc) : list string :=
  List.filter (fun k => negb (validate_path k (get (doc_fields d) k)))
              (doc_modified d).

Definition Doc_save (d : Doc) : M unit :=
  do! emit (EvSave (doc_id d)) in
  match invalid_paths d with
  | [] => write_alias d
  | bad => throw (ValidationError bad)
  end.

Definition getAliasContext (ctx : Ctx) : Error + AliasContext :=
  let user := opt_prop (ctx_state ctx) "user" in
  if negb (truthy user) || negb (truthy (opt_prop user "alias_id")) then
    inl (Boom_unauthorized "SETTINGS_ALIAS_AUTH_REQUIRED")
  else if negb (isValidObjectId (opt_prop user "alias_id")) then
    inl (Boom_unauthorized "SETTINGS_INVALID_ALIAS_ID")
  else
    inr {| aliasId := opt_prop user "alias_id";
           domainName := opt_prop user "domain_name";
           aliasEmail := opt_prop user "username" |}.

(** [body && typeof body !== 'object'] *)
Definition invalid_body (body : JsValue) : bool :=
  truthy body && negb (String.eqb (typeof body) "object").

(** The guard on [updates.mail_archive_folder]. *)
Definition invalid_archive_folder (updates : Obj) : bool :=
  hasOwnProperty updates "mail_archive_folder"
  && negb (is_null (get updates "mail_archive_folder"))
  && negb (is_undefined (get updates "mail_archive_folder"))
  && negb (String.eqb (typeof (get updates "mail_archive_folder")) "string").

(** [for (const [key, value] of Object.entries(updates))] *)
Fixpoint apply_updates (entries : list (string * JsValue)) (alias : Doc)
  : M Doc :=
  match entries with
  | [] => ret alias
  | (key, value) :: rest =>
      if is_undefined value then apply_updates rest alias
      else let! alias' := Doc_set key value alias in
           apply_updates rest alias'
  end.

Definition updateAliasSettingsForContext (ctx : Ctx) (body : JsValue)
  : M unit :=
  let! aliasContext := lift (getAliasContext ctx) in
  if invalid_body body then
    throw (Boom_badRequest "INVALID_REQUEST_BODY")
  else
    let! found := Aliases_findById (aliasId aliasContext) in
    match found with
    | None => throw (Boom_unauthorized "SETTINGS_INVALID_ALIAS_ID")
    | Some alias =>
        let updates := pick body ALIAS_SETTINGS_FIELDS in
        if invalid_archive_folder updates then
          throw (Boom_badRequest "SETTINGS_ARCHIVE_FOLDER_INVALID")
        else
          let! alias' :=
            apply_updates (pick_entries body ALIAS_SETTINGS_FIELDS) alias in
          Doc_save alias'
    end.

(** The response of an alias session, lines 124-145 of [retrieve] and,
    word for word, lines 166-187 of [update]: [None] is the TypeError of
    [alias.domain.name] when no domain is attached.  The spread of the
    settings comes last and wins over the properties before it. *)
Definition aliasAccountBody (ctx : Ctx) (alias : Obj) : option Obj :=
  let storageUsed := or_else (get alias "storage_used") (JNum 0) in
  let domain := get alias "domain" in
  let maxQuotaPerAlias :=
    or_else (and_then domain (opt_prop domain "max_quota_per_alias"))
            config_maxQuotaPerAlias in
  domain_name ← prop domain "name";
  domain_id ← prop domain "id";
  Some (serializeAliasSettings alias ∪
        list_to_map
          [ ("id", get alias "id");
            ("object", JStr "alias");
            ("name", get alias "name");
            ("email", JStr (toString (get alias "name") +:+ "@"
                            +:+ toString domain_name));
            ("domain_id", domain_id);
            ("domain_name", domain_name);
            ("storage_used", storageUsed);
            ("storage_quota", maxQuotaPerAlias);
            ("has_imap", get alias "has_imap");
            ("has_pgp", get alias "has_pgp");
            ("public_key", get alias "public_key");
            ("locale", or_else (get alias "locale") (ctx_locale ctx));
            ("created_at", get alias "created_at");
            ("updated_at", get alias "updated_at") ]).

(** The fetch and the response shared by [retrieve] (lines 116-145) and
    [update] (lines 158-187). *)
Definition respondAlias (ctx : Ctx) : M JsValue :=
  let! id := read (prop (opt_prop (ctx_state ctx) "user") "alias_id") in
  let! found := Aliases_findById_lean id in
  match found with
  | None => throw (Boom_notFound "ALIAS_DOES_NOT_EXIST")
  | Some alias =>
      let! body := read (aliasAccountBody ctx alias) in
      ret (JObj body)
  end.

(** [ctx.state.user.toObject()] *)
Definition user_toObject (ctx : Ctx) : option JsValue :=
  match opt_prop (ctx_state ctx) "user" with
  | JObj u => Some (JObj u)
  | _ => None
  end.

Definition retrieve (ctx : Ctx) : M JsValue :=
  if alias_session ctx then respondAlias ctx
  else read (user_toObject ctx).

(** [if (_.isString(body.k)) ctx.state.user.k = body.k] *)
Definition assign_string (body : Obj) (k : string) (user : Obj) : Obj :=
  if isString (get body k) then <[k := get body k]> user else user.

Definition update (ctx : Ctx) : M JsValue :=
  let body := ctx_request_body ctx in
  if alias_session ctx then
    do! updateAliasSettingsForContext ctx body in
    respondAlias ctx
  else
    match body, opt_prop (ctx_state ctx) "user" with
    | (JUndefined | JNull), _ => throw TypeError
    | _, JObj user =>
        let user := assign_string (own body) "email" user in
        let user := assign_string (own body) givenName user in
        let user := assign_string (own body) familyName user in
        let user := assign_string (own body) "avatar_url" user in
        let! saved := lift (Users_save user) in
        ret (JObj saved)
    | _, _ => throw TypeError
    end.

End Controller.

(** Running a request against stored collections, with an empty log. *)
Definition start (a d : gmap string Obj) : World :=
  {| aliases := a; domains := d; log := [] |}.

(** The effect of the loop of [updateAliasSettingsForContext] in closed
    form: the entries with a defined value, the fields after they have
    been set in order, and the calls logged. *)
Definition defined_entries (entries : list (string * JsValue))
  : list (string * JsValue) :=
  List.filter (fun kv => negb (is_undefined kv.2)) entries.

Definition apply_fields (entries : list (string * JsValue)) (fields : Obj)
  : Obj :=
  foldl (fun f kv => <[kv.1 := kv.2]> f) fields (defined_entries entries).

Definition set_events (entries : list (string * JsValue)) : list Event :=
  (fun kv => EvSet kv.1 kv.2) <$> defined_entries entries.

(** The document at the moment [save] is called on it. *)
Definition updated_doc (id : JsValue) (stored : Obj) (body : JsValue) : Doc :=
  {| doc_id := id_string id;
     doc_fields := apply_fields (pick_entries body ALIAS_SETTINGS_FIELDS) stored;
     doc_modified :=
       (defined_entries (pick_entries body ALIAS_SETTINGS_FIELDS)).*1 |}.

(** The alias identifier a request context carries. *)
Definition ctx_alias_id (ctx : Ctx) : JsValue :=
  opt_prop (opt_prop (ctx_state ctx) "user") "alias_id".

(** Whether a logged call is a [set], or a write to the store. *)
Definition is_set (e : Event) : bool :=
  match e with EvSet _ _ => true | _ => false end.
Definition is_write (e : Event) : bool :=
  match e with EvWrite _ => true | _ => false end.

(** *** Registration *)

(** The calls [create] makes on its collaborators, in program order. *)
Inductive Call : Type :=
  | CallRegister (query : Obj) (password : JsValue)
  | CallSendVerificationEmail (ctx : Ctx).

Section Registration.

(** What [create] takes from its collaborators: [isSANB]
    (is-string-and-not-blank), the field names
    [config.userFields.hasVerifiedEmail], [hasSetPassword],
    [pendingRecovery] and [apiToken], [config.lastLocaleField], the result
    of [Users.register] and of [sendVerificationEmail], and the plain
    object [toObject] makes of a user document. *)
Variable isSANB : JsValue → bool.
Variables hasVerifiedEmail hasSetPassword pendingRecovery : string.
Variables lastLocaleField apiToken : string.
Variable Users_register : Obj → JsValue → Error + Obj.
Variable sendVerificationEmail : Ctx → Error + Obj.
Variable toObject : Obj → Obj.

(** The query handed to [Users.register]: the object literal, then the
    four computed keys in the order they are assigned. *)
Definition register_query (ctx : Ctx) (body : JsValue) : Obj :=
  let query : Obj :=
    list_to_map [ ("email", opt_prop body "email");
                  ("locale", ctx_locale ctx) ] in
  let query := <[hasVerifiedEmail := JBool false]> query in
  let query := <[hasSetPassword := JBool true]> query in
  let query := <[pendingRecovery := JBool false]> query in
  let query := <[lastLocaleField := ctx_locale ctx]> query in
  query.

(** [ctx.state.user = user] *)
Definition with_user (ctx : Ctx) (state : Obj) (user : Obj) : Ctx :=
  {| ctx_state := JObj (<["user" := JObj user]> state);
     ctx_locale := ctx_locale ctx;
     ctx_request_body := ctx_request_body ctx |}.

(** The response: [toObject] of the user, with the API token put back. *)
Definition registered (user : Obj) : JsValue :=
  JObj (<[apiToken := get user apiToken]> (toObject user)).

(** [create] returns the response body, or what it throws, and the calls
    it has made. *)
Definition create (ctx : Ctx) : (Error + JsValue) * list Call :=
  let body := ctx_request_body ctx in
  match prop body "password" with
  | None => (inl TypeError, [])
  | Some password =>
      if negb (isSANB password) then
        (inl (Boom_badRequest "INVALID_PASSWORD"), [])
      else
        let query := register_query ctx body in
        match Users_register query password with
        | inl e => (inl e, [CallRegister query password])
        | inr user =>
            match ctx_state ctx with
            | JObj state =>
                if negb (truthy (get user hasVerifiedEmail)) then
                  let ctx' := with_user ctx state user in
                  match sendVerificationEmail ctx' with
                  | inl e =>
                      (inl e, [CallRegister query password;
                               CallSendVerificationEmail ctx'])
                  | inr user' =>
                      (inr (registered user'),
                       [CallRegister query password;
                        CallSendVerificationEmail ctx'])
                  end
                else (inr (registered user), [CallRegister query password])
            | _ => (inl TypeError, [CallRegister query password])
            end
        end
  end.

End Registration.

(** The properties of the response that the controller writes itself,
    before the settings are spread over them. *)
Definition account_keys : list string :=
  [ "id"; "object"; "name"; "email"; "domain_id"; "domain_name";
    "storage_used"; "storage_quota"; "has_imap"; "has_pgp"; "public_key";
    "locale"; "created_at"; "updated_at" ].

(** The three settings that are served as an empty map when the record
    holds nothing truthy for them. *)
Definition map_settings : list string :=
  ["shortcuts"; "label_settings"; "aliases_defaults"].

(** The value a payload applies to a key, if any: the value it carries
    for a whitelisted key, unless undefined. *)
Definition applied (body : JsValue) (k : string) : option JsValue :=
  match own body !! k with
  | Some v =>
      if decide (k ∈ ALIAS_SETTINGS_FIELDS) then
        if is_undefined v then None else Some v
      else None
  | None => None
  end.

(** A stored alias whose domain cannot be populated: it names no domain,
    or a domain that is not stored. *)
Definition domain_missing (w : World) (alias : Obj) : Prop :=
  alias !! "domain" = None
  ∨ ∃ d, alias !! "domain" = Some (JStr d) ∧ domains w !! d = None.

(** A payload with a field that fails validation: the type guard on
    [mail_archive_folder] refuses it, or it carries a defined value for a
    whitelisted field that the rule of the schema refuses. *)
Definition fails_validation (validate_path : string → JsValue → bool)
    (body : JsValue) : Prop :=
  invalid_archive_folder (pick body ALIAS_SETTINGS_FIELDS) = true
  ∨ ∃ k v, k ∈ ALIAS_SETTINGS_FIELDS ∧ own body !! k = Some v
           ∧ v ≠ JUndefined ∧ validate_path k v = false.



End Users.

Import Users.

(** ** A concrete store and concrete requests *)

Module Example.

(** [mongoose.isValidObjectId] on the identifiers used here: a string of
    24 hexadecimal digits. *)
Definition isValidObjectId (v : JsValue) : bool :=
  match v with
  | JStr s =>
      bool_decide (String.length s = 24)
      && forallb Schema.hex_char (list_ascii_of_string s)
  | _ => false
  end.

Definition alias_id : string := "64b7f0c2a1d3e4f5a6b7c8d9".
Definition domain_id : string := "64b7f0c2a1d3e4f5a6b7c8da".

(** [config.maxQuotaPerAlias], ten gigabytes. *)
Definition quota : JsValue := JNum 10737418240.

Definition save_user (user : Obj) : Error + Obj := inr user.

(** The context of an alias session whose request carries [body]. *)
Definition ctx (body : JsValue) : Ctx :=
  {| ctx_state :=
       JObj (list_to_map
               [ ("user", JObj (list_to_map
                                  [ ("alias_id", JStr alias_id);
                                    ("domain_name", JStr "example.com");
                                    ("username", JStr "hello@example.com") ]));
                 ("session", JObj (list_to_map [("db", JBool true)])) ]);
     ctx_locale := JStr "en";
     ctx_request_body := body |}.

Definition domain : Obj :=
  list_to_map [ ("id", JStr domain_id); ("name", JStr "example.com");
                ("plan", JStr "enhanced_protection") ].

(** The same domain with a quota of zero. *)
Definition domain_zero_quota : Obj :=
  <["max_quota_per_alias" := JNum 0]> domain.

(** The fields of an alias that stores no settings field. *)
Definition fresh_fields : Obj :=
  list_to_map [ ("id", JStr alias_id); ("name", JStr "hello");
                ("domain", JStr domain_id); ("has_imap", JBool true) ].

(** The five scalar settings with the values that
    src/test/api/v1-settings.js reads back for a new alias, and an alias
    record that stores them. *)
Definition stored_settings : Obj :=
  list_to_map
    [ ("appearance_theme", JStr "system");
      ("appearance_layout_mode", JStr "personal");
      ("mail_messages_per_page", JNum 50);
      ("mail_archive_folder", JNull);
      ("search_body_indexing", JBool false) ].

Definition alias : Obj := fresh_fields ∪ stored_settings.

Definition world : World :=
  start {[ alias_id := alias ]} {[ domain_id := domain ]}.

(** A store without the alias of the session, and one whose domain has
    a quota of zero. *)
Definition world_without_alias : World :=
  start ∅ {[ domain_id := domain ]}.

Definition world_zero_quota : World :=
  start {[ alias_id := alias ]} {[ domain_id := domain_zero_quota ]}.


(** The alias context of the session. *)
Definition session : AliasContext :=
  {| aliasId := JStr alias_id;
     domainName := JStr "example.com";
     aliasEmail := JStr "hello@example.com" |}.

Definition updateAliasSettings (body : JsValue) : M unit :=
  updateAliasSettingsForContext isValidObjectId Schema.rule (ctx JUndefined)
                                body.

(** The payload of a response, when there is one. *)
Definition payload_of (r : (Error + JsValue) * World) : Obj :=
  match r.1 with inr (JObj p) => p | _ => ∅ end.

Definition update (body : JsValue) : M JsValue :=
  Users.update isValidObjectId Schema.rule quota "given_name" "family_name"
               save_user (ctx body).

Definition retrieve : M JsValue := Users.retrieve quota (ctx JUndefined).

(** Payloads. *)
Definition theme_and_page_30 : JsValue :=
  JObj (list_to_map [ ("appearance_theme", JStr "dark");
                      ("mail_messages_per_page", JNum 30) ]).

Definition label_work : Obj :=
  list_to_map [ ("work", JObj (list_to_map [ ("name", JStr "Work");
                                             ("color", JStr "#33AADD") ])) ].

Definition labels (m : Obj) : JsValue :=
  JObj (list_to_map [ ("label_settings", JObj m) ]).

Definition falsy_fields : JsValue :=
  JObj (list_to_map [ ("search_body_indexing", JBool false);
                      ("prefetch_folders", JArr []);
                      ("aliases_defaults", JObj ∅);
                      ("compose_plain_default", JUndefined) ]).

Definition archive_folder (v : JsValue) : JsValue :=
  JObj (list_to_map [ ("mail_archive_folder", v) ]).

(** A session without a user, and a store in which the alias's domain is
    not stored. *)
Definition ctx_without_user (body : JsValue) : Ctx :=
  {| ctx_state := JObj (list_to_map
                          [ ("session", JObj (list_to_map [("db", JBool true)])) ]);
     ctx_locale := JStr "en";
     ctx_request_body := body |}.

Definition world_without_domain : World := start {[ alias_id := alias ]} ∅.

(** A user session: the user, and a body that carries a new email, a
    number for the given name and a field that is not copied. *)
Definition user : Obj :=
  list_to_map [ ("email", JStr "old@example.com");
                ("given_name", JStr "Ada"); ("group", JStr "user") ].


Definition user_ctx (body : JsValue) : Ctx :=
  {| ctx_state := JObj (list_to_map [ ("user", JObj user) ]);
     ctx_locale := JStr "en";
     ctx_request_body := body |}.

(** Collaborators of [create]: a string is blank when it has only
    white space (the space and the control characters from tab to
    carriage return), registration answers the query as the user, the
    verification email answers the user of the context. *)
Definition white_space (c : ascii) : bool :=
  Ascii.eqb c " " || bool_decide (9 ≤ nat_of_ascii c ≤ 13).

Definition isSANB (v : JsValue) : bool :=
  match v with
  | JStr s => existsb (fun c => negb (white_space c)) (list_ascii_of_string s)
  | _ => false
  end.

Definition register (query : Obj) (password : JsValue) : Error + Obj :=
  inr query.

Definition sendVerificationEmail (c : Ctx) : Error + Obj :=
  inr (own (opt_prop (ctx_state c) "user")).

Definition create (c : Ctx) : (Error + JsValue) * list Call :=
  Users.create isSANB "has_verified_email" "has_set_password"
               "pending_recovery" "last_locale" "api_token"
               register sendVerificationEmail (fun user => user) c.

Definition registration (password : JsValue) : Ctx :=
  {| ctx_state := JObj ∅;
     ctx_locale := JStr "en";
     ctx_request_body :=
       JObj (list_to_map [ ("email", JStr "ada@example.com");
                           ("password", password) ]) |}.

End Example.

(** ** Properties of the building blocks *)

Lemma field_check k :
  bool_decide (k ∈ ALIAS_SETTINGS_FIELDS) = true → k ∈ ALIAS_SETTINGS_FIELDS.
Proof. apply bool_decide_eq_true_1. Qed.

Lemma not_field_check k :
  bool_decide (k ∈ ALIAS_SETTINGS_FIELDS) = false → k ∉ ALIAS_SETTINGS_FIELDS.
Proof. apply bool_decide_eq_false_1. Qed.

Lemma ALIAS_SETTINGS_FIELDS_NoDup : NoDup ALIAS_SETTINGS_FIELDS.
Proof. apply (bool_decide_unpack _). by vm_compute. Qed.

Ltac in_list :=
  repeat first [apply list_elem_of_here | apply list_elem_of_further].
Ltac is_field := apply field_check; vm_compute; reflexivity.
Ltac not_field := apply not_field_check; vm_compute; reflexivity.

Section Properties.

Variable isValidObjectId : JsValue → bool.
Variable validate_path : string → JsValue → bool.
Variable config_maxQuotaPerAlias : JsValue.
Variables givenName familyName : string.
Variable Users_save : Obj → Error + Obj.

Local Abbreviation invalid_paths := (Users.invalid_paths validate_path).
Local Abbreviation Doc_save := (Users.Doc_save validate_path).
Local Abbreviation getAliasContext := (Users.getAliasContext isValidObjectId).
Local Abbreviation updateAliasSettingsForContext :=
  (Users.updateAliasSettingsForContext isValidObjectId validate_path).
Local Abbreviation aliasAccountBody := (Users.aliasAccountBody config_maxQuotaPerAlias).
Local Abbreviation respondAlias := (Users.respondAlias config_maxQuotaPerAlias).
Local Abbreviation retrieve := (Users.retrieve config_maxQuotaPerAlias).
Local Abbreviation update :=
  (Users.update isValidObjectId validate_path config_maxQuotaPerAlias
                givenName familyName Users_save).

#[local] Opaque ALIAS_SETTINGS_FIELDS.

Lemma logged_logged w e1 e2 : logged (logged w e1) e2 = logged w (e1 ++ e2).
Proof. unfold logged; simpl. by rewrite <- app_assoc. Qed.

Lemma logged_nil w : logged w [] = w.
Proof. destruct w; unfold logged; simpl. by rewrite app_nil_r. Qed.

Lemma lookup_alias_logged w ev id :
  lookup_alias (logged w ev) id = lookup_alias w id.
Proof. by destruct id. Qed.

Lemma pick_entries_cons (o : JsValue) k paths :
  pick_entries o (k :: paths) =
  match own o !! k with
  | Some v => (k, v) :: pick_entries o paths
  | None => pick_entries o paths
  end.
Proof. unfold pick_entries; simpl. by destruct (own o !! k). Qed.

Lemma elem_of_pick_entries (o : JsValue) paths k v :
  (k, v) ∈ pick_entries o paths ↔ k ∈ paths ∧ own o !! k = Some v.
Proof.
  unfold pick_entries. rewrite list_elem_of_omap. split.
  - intros (k' & Hin & Hk). destruct (own o !! k') eqn:E; simplify_eq/=.
    done.
  - intros [Hin Hk]. exists k. by rewrite Hk.
Qed.

Lemma pick_lookup (o : JsValue) paths k :
  pick o paths !! k = if decide (k ∈ paths) then own o !! k else None.
Proof.
  unfold pick. induction paths as [|p paths IH].
  - destruct (decide (k ∈ [])) as [Hin|_]; [by apply elem_of_nil in Hin|].
    apply lookup_empty.
  - rewrite pick_entries_cons.
    destruct (decide (k = p)) as [->|Hne].
    + rewrite decide_True by apply list_elem_of_here.
      destruct (own o !! p) eqn:E.
      * by rewrite list_to_map_cons, lookup_insert_eq.
      * rewrite IH. by destruct (decide (p ∈ paths)).
    + assert ((list_to_map (pick_entries o paths) : Obj) !! k =
              if decide (k ∈ p :: paths) then own o !! k else None) as IH'.
      { rewrite IH. destruct (decide (k ∈ paths)) as [Hin|Hnin].
        - rewrite decide_True; [done | by apply list_elem_of_further].
        - rewrite decide_False; [done|].
          intros [?|?]%elem_of_cons; done. }
      destruct (own o !! p); [|done].
      by rewrite list_to_map_cons, lookup_insert_ne.
Qed.

Lemma apply_fields_cons k v entries fields :
  apply_fields ((k, v) :: entries) fields =
  if is_undefined v then apply_fields entries fields
  else apply_fields entries (<[k := v]> fields).
Proof. unfold apply_fields, defined_entries; simpl. by destruct (is_undefined v). Qed.

Lemma set_events_cons k v entries :
  set_events ((k, v) :: entries) =
  if is_undefined v then set_events entries
  else EvSet k v :: set_events entries.
Proof. unfold set_events, defined_entries; simpl. by destruct (is_undefined v). Qed.

Lemma defined_keys_cons k v (entries : list (string * JsValue)) :
  (defined_entries ((k, v) :: entries)).*1 =
  if is_undefined v then (defined_entries entries).*1
  else k :: (defined_entries entries).*1.
Proof. unfold defined_entries; simpl. by destruct (is_undefined v). Qed.

(** The loop sets the defined entries in order and does nothing else. *)
Lemma apply_updates_run entries alias w :
  apply_updates entries alias w =
  (inr {| doc_id := doc_id alias;
          doc_fields := apply_fields entries (doc_fields alias);
          doc_modified := doc_modified alias ++ (defined_entries entries).*1 |},
   logged w (set_events entries)).
Proof.
  revert alias w. induction entries as [|[k v] entries IH]; intros alias w.
  - simpl. unfold ret. rewrite logged_nil, app_nil_r. by destruct alias.
  - rewrite apply_fields_cons, set_events_cons, defined_keys_cons.
    cbn [apply_updates]. destruct (is_undefined v); [apply IH|].
    unfold Doc_set, emit, ret, bind; cbn beta iota.
    rewrite IH; cbn [doc_id doc_fields doc_modified].
    rewrite logged_logged. by rewrite <- app_assoc.
Qed.

Lemma getAliasContext_inr ctx ac :
  getAliasContext ctx = inr ac →
  aliasId ac = ctx_alias_id ctx ∧ truthy (ctx_alias_id ctx) = true
  ∧ isValidObjectId (ctx_alias_id ctx) = true.
Proof.
  unfold getAliasContext, ctx_alias_id.
  destruct (truthy (opt_prop (ctx_state ctx) "user")); simpl; [|done].
  destruct (truthy (opt_prop (opt_prop (ctx_state ctx) "user") "alias_id"));
    simpl; [|done].
  destruct (isValidObjectId _); simpl; [|done].
  by intros [= <-].
Qed.

Lemma getAliasContext_inl ctx e :
  getAliasContext ctx = inl e → status e = 401%Z.
Proof.
  unfold getAliasContext.
  repeat (match goal with |- context [if ?b then _ else _] => destruct b end;
          simpl; try done); by intros [= <-].
Qed.

(** [updateAliasSettingsForContext] in closed form: which guard stops it,
    what is logged up to there, and what is written when none does. *)
Lemma updateAliasSettingsForContext_run ctx body w :
  updateAliasSettingsForContext ctx body w =
  match getAliasContext ctx with
  | inl e => (inl e, w)
  | inr ac =>
      let id := aliasId ac in
      if invalid_body body then
        (inl (Boom_badRequest "INVALID_REQUEST_BODY"), w)
      else
        match lookup_alias w id with
        | None =>
            (inl (Boom_unauthorized "SETTINGS_INVALID_ALIAS_ID"),
             logged w [EvFindById id])
        | Some stored =>
            if invalid_archive_folder (pick body ALIAS_SETTINGS_FIELDS) then
              (inl (Boom_badRequest "SETTINGS_ARCHIVE_FOLDER_INVALID"),
               logged w [EvFindById id])
            else
              let d := updated_doc id stored body in
              let sets := set_events (pick_entries body ALIAS_SETTINGS_FIELDS) in
              match invalid_paths d with
              | [] =>
                  (inr (),
                   {| aliases := <[doc_id d := doc_fields d]> (aliases w);
                      domains := domains w;
                      log := log w ++ EvFindById id :: sets
                                   ++ [EvSave (doc_id d); EvWrite (doc_id d)] |})
              | bad =>
                  (inl (ValidationError bad),
                   logged w (EvFindById id :: sets ++ [EvSave (doc_id d)]))
              end
        end
  end.
Proof.
  unfold updateAliasSettingsForContext, bind at 1, lift.
  destruct (getAliasContext ctx) as [e|ac]; [done|]. cbn zeta.
  destruct (invalid_body body); [done|].
  unfold Aliases_findById, bind, emit. cbn beta iota.
  rewrite lookup_alias_logged.
  destruct (lookup_alias w (aliasId ac)) as [stored|]; [|done].
  cbn [fmap option_fmap option_map].
  destruct (invalid_archive_folder _); [done|].
  rewrite apply_updates_run. cbn [doc_id doc_fields doc_modified app].
  unfold Doc_save, bind, emit, updated_doc. cbn beta iota.
  destruct (invalid_paths _) as [|bad1 bad] eqn:E.
  - unfold write_alias, logged.
    cbn [log aliases domains doc_id doc_fields doc_modified].
    do 2 f_equal. by rewrite <- !List.app_assoc.
  - unfold throw. by rewrite !logged_logged.
Qed.

Lemma is_undefined_true v : is_undefined v = true ↔ v = JUndefined.
Proof. by destruct v. Qed.

Lemma is_undefined_false v : is_undefined v = false ↔ v ≠ JUndefined.
Proof. by destruct v. Qed.

(** A key whose entries are all undefined keeps its stored value. *)
Lemma apply_fields_frame entries fields k :
  (∀ v, (k, v) ∈ entries → v = JUndefined) →
  apply_fields entries fields !! k = fields !! k.
Proof.
  revert fields. induction entries as [|[k0 v0] entries IH]; intros fields H.
  - done.
  - rewrite apply_fields_cons.
    assert (∀ v, (k, v) ∈ entries → v = JUndefined) as H'.
    { intros v Hv. apply H. by apply list_elem_of_further. }
    destruct (is_undefined v0) eqn:E; [by apply IH|].
    rewrite IH by done. apply lookup_insert_ne. intros ->.
    apply is_undefined_false in E. apply E, H, list_elem_of_here.
Qed.

(** A key with a defined entry holds that entry's value afterwards. *)
Lemma apply_fields_set entries fields k v :
  (k, v) ∈ entries ∨ fields !! k = Some v →
  (∀ v', (k, v') ∈ entries → v' = v) →
  v ≠ JUndefined →
  apply_fields entries fields !! k = Some v.
Proof.
  revert fields. induction entries as [|[k0 v0] entries IH];
    intros fields Hin Hfun Hdef.
  - destruct Hin as [Hin|Hin]; [by apply elem_of_nil in Hin | done].
  - rewrite apply_fields_cons.
    assert (∀ v', (k, v') ∈ entries → v' = v) as Hfun'.
    { intros v' Hv'. apply Hfun. by apply list_elem_of_further. }
    destruct (decide (k0 = k)) as [->|Hne].
    + assert (v0 = v) as -> by apply Hfun, list_elem_of_here.
      apply is_undefined_false in Hdef. rewrite Hdef.
      apply IH; [right; apply lookup_insert_eq | done | by apply is_undefined_false].
    + assert ((k, v) ∈ entries ∨ fields !! k = Some v) as Hin'.
      { destruct Hin as [Hin|Hin]; [|by right].
        apply elem_of_cons in Hin as [[= ? ?]|Hin]; [congruence | by left]. }
      destruct (is_undefined v0); [by apply IH|].
      apply IH; [|done..].
      destruct Hin' as [?|?]; [by left | right; by rewrite lookup_insert_ne].
Qed.

(** The fields of the document that is saved, key by key: a whitelisted
    key of the body with a defined value holds that value, every other key
    holds what was stored. *)
Lemma updated_fields_lookup body stored k :
  apply_fields (pick_entries body ALIAS_SETTINGS_FIELDS) stored !! k =
  match own body !! k with
  | Some v =>
      if decide (k ∈ ALIAS_SETTINGS_FIELDS) then
        if is_undefined v then stored !! k else Some v
      else stored !! k
  | None => stored !! k
  end.
Proof.
  destruct (own body !! k) as [v|] eqn:Hk.
  - destruct (decide (k ∈ ALIAS_SETTINGS_FIELDS)) as [Hin|Hnin].
    + destruct (is_undefined v) eqn:Hv.
      * apply apply_fields_frame. intros v' [_ Hv']%elem_of_pick_entries.
        apply is_undefined_true in Hv. congruence.
      * apply apply_fields_set.
        -- left. by apply elem_of_pick_entries.
        -- intros v' [_ Hv']%elem_of_pick_entries. congruence.
        -- by apply is_undefined_false.
    + apply apply_fields_frame. by intros v' [? _]%elem_of_pick_entries.
  - apply apply_fields_frame. intros v' [_ Hv']%elem_of_pick_entries.
    congruence.
Qed.

Lemma set_events_are_sets entries c :
  c ∈ set_events entries →
  ∃ k v, c = EvSet k v ∧ (k, v) ∈ entries ∧ v ≠ JUndefined.
Proof.
  unfold set_events, defined_entries.
  intros ([k v] & -> & Hin)%list_elem_of_fmap.
  apply list_elem_of_In, filter_In in Hin as [Hin Hdef].
  exists k, v. split; [done|]. split; [by apply list_elem_of_In|].
  apply is_undefined_false. simpl in Hdef. by destruct (is_undefined v).
Qed.

(** ** The claims *)

(** What a failure of [updateAliasSettingsForContext] leaves behind: the
    stored collections as they were and no write; no [set] either unless
    the error is a validation error of [save], which comes after the
    sets. *)
Lemma failed_update_writes_nothing ctx body w e w' :
  updateAliasSettingsForContext ctx body w = (inl e, w') →
  aliases w' = aliases w ∧ domains w' = domains w
  ∧ ∃ calls,
      log w' = log w ++ calls
      ∧ (∀ c, c ∈ calls → is_write c = false)
      ∧ ((∀ bad, e ≠ ValidationError bad) → ∀ c, c ∈ calls → is_set c = false)
      ∧ (∀ bad, e = ValidationError bad →
           calls = EvFindById (ctx_alias_id ctx)
                   :: set_events (pick_entries body ALIAS_SETTINGS_FIELDS)
                   ++ [EvSave (id_string (ctx_alias_id ctx))]).
Proof.
  rewrite updateAliasSettingsForContext_run.
  destruct (getAliasContext ctx) as [e0|ac] eqn:Hac.
  { intros [= <- <-]. do 2 (split; [done|]). exists [].
    rewrite app_nil_r. split; [done|].
    split; [by intros c ?%elem_of_nil|].
    split; [by intros _ c ?%elem_of_nil|].
    intros bad ->. by apply getAliasContext_inl in Hac. }
  apply getAliasContext_inr in Hac as (Hid & _ & _). cbn zeta. rewrite Hid.
  destruct (invalid_body body).
  { intros [= <- <-]. do 2 (split; [done|]). exists [].
    rewrite app_nil_r. split; [done|].
    split; [by intros c ?%elem_of_nil|].
    split; [by intros _ c ?%elem_of_nil | done]. }
  destruct (lookup_alias w (ctx_alias_id ctx)) as [stored|].
  2:{ intros [= <- <-]. do 2 (split; [done|]). exists [EvFindById (ctx_alias_id ctx)].
      split; [done|].
      split; [by intros c Hc%list_elem_of_singleton; rewrite Hc|].
      split; [by intros _ c Hc%list_elem_of_singleton; rewrite Hc | done]. }
  destruct (invalid_archive_folder _).
  { intros [= <- <-]. do 2 (split; [done|]). exists [EvFindById (ctx_alias_id ctx)].
    split; [done|].
    split; [by intros c Hc%list_elem_of_singleton; rewrite Hc|].
    split; [by intros _ c Hc%list_elem_of_singleton; rewrite Hc | done]. }
  destruct (invalid_paths _) as [|bad1 bad]; [done|].
  intros [= <- <-]. do 2 (split; [done|]). eexists. split; [done|].
  split; [|split; [|done]].
  - intros c [->|Hc]%elem_of_cons; [done|].
    apply elem_of_app in Hc as [Hc|Hc].
    + by apply set_events_are_sets in Hc as (k & v & -> & _).
    + by apply list_elem_of_singleton in Hc as ->.
  - intros Hne. by destruct (Hne (bad1 :: bad)).
Qed.

Lemma lookup_alias_Some w id stored :
  lookup_alias w id = Some stored →
  id = JStr (id_string id) ∧ aliases w !! id_string id = Some stored.
Proof. by destruct id. Qed.

Lemma lookup_alias_written w w' id stored x :
  lookup_alias w id = Some stored →
  aliases w' = <[id_string id := x]> (aliases w) →
  lookup_alias w' id = Some x.
Proof.
  destruct id; try done. cbn [lookup_alias id_string].
  intros _ ->. apply lookup_insert_eq.
Qed.

(** What a successful update has done. *)
Lemma update_ok ctx body w w' :
  updateAliasSettingsForContext ctx body w = (inr (), w') →
  ∃ stored,
    lookup_alias w (ctx_alias_id ctx) = Some stored
    ∧ invalid_body body = false
    ∧ invalid_archive_folder (pick body ALIAS_SETTINGS_FIELDS) = false
    ∧ aliases w' =
        <[id_string (ctx_alias_id ctx) :=
            apply_fields (pick_entries body ALIAS_SETTINGS_FIELDS) stored]>
          (aliases w)
    ∧ domains w' = domains w
    ∧ log w' =
        log w ++ EvFindById (ctx_alias_id ctx)
              :: set_events (pick_entries body ALIAS_SETTINGS_FIELDS)
              ++ [EvSave (id_string (ctx_alias_id ctx));
                  EvWrite (id_string (ctx_alias_id ctx))].
Proof.
  rewrite updateAliasSettingsForContext_run.
  destruct (getAliasContext ctx) as [e0|ac] eqn:Hac; [done|].
  apply getAliasContext_inr in Hac as (Hid & _ & _). cbn zeta. rewrite Hid.
  destruct (invalid_body body); [done|].
  destruct (lookup_alias w (ctx_alias_id ctx)) as [stored|]; [|done].
  destruct (invalid_archive_folder _); [done|].
  destruct (invalid_paths _); [|done].
  intros [= <-]. by exists stored.
Qed.

Lemma update_ok_lookup ctx body w w' stored :
  updateAliasSettingsForContext ctx body w = (inr (), w') →
  lookup_alias w (ctx_alias_id ctx) = Some stored →
  lookup_alias w' (ctx_alias_id ctx) =
    Some (apply_fields (pick_entries body ALIAS_SETTINGS_FIELDS) stored).
Proof.
  intros (stored' & Hs & _ & _ & Ha & _)%update_ok Hstored.
  assert (stored' = stored) as -> by congruence.
  apply lookup_alias_Some in Hs as [Hid _]. rewrite Hid at 1.
  unfold lookup_alias. rewrite Ha. apply lookup_insert_eq.
Qed.

Lemma invalid_paths_nil d :
  invalid_paths d = [] ↔
  ∀ k, k ∈ doc_modified d → validate_path k (get (doc_fields d) k) = true.
Proof.
  unfold invalid_paths. split.
  - intros Hnil k Hk%list_elem_of_In.
    destruct (validate_path k (get (doc_fields d) k)) eqn:E; [done|].
    assert (In k []) as []. rewrite <- Hnil. apply filter_In. by rewrite E.
  - intros Hall. destruct (List.filter _ _) as [|k ks] eqn:E; [done|].
    assert (In k (k :: ks)) as Hin by apply in_eq.
    rewrite <- E in Hin. apply filter_In in Hin as [Hin Hbad].
    apply list_elem_of_In, Hall in Hin. by rewrite Hin in Hbad.
Qed.

Lemma elem_of_defined_keys (entries : list (string * JsValue)) k :
  k ∈ (defined_entries entries).*1 ↔
  ∃ v, (k, v) ∈ entries ∧ v ≠ JUndefined.
Proof.
  unfold defined_entries. rewrite list_elem_of_fmap. split.
  - intros ([k' v] & -> & Hin). exists v.
    apply list_elem_of_In, filter_In in Hin as [Hin Hdef].
    split; [by apply list_elem_of_In|]. apply is_undefined_false.
    simpl in Hdef. by destruct (is_undefined v).
  - intros (v & Hin & Hdef). exists (k, v). split; [done|].
    apply list_elem_of_In, filter_In. split; [by apply list_elem_of_In|].
    simpl. apply is_undefined_false in Hdef. by rewrite Hdef.
Qed.

Lemma pick_entries_ext (o o' : JsValue) paths :
  (∀ k, k ∈ paths → own o !! k = own o' !! k) →
  pick_entries o paths = pick_entries o' paths.
Proof.
  induction paths as [|p paths IH]; intros H; [done|].
  rewrite !pick_entries_cons, H by apply list_elem_of_here.
  rewrite IH; [done|]. intros k Hk. apply H. by apply list_elem_of_further.
Qed.

Lemma pick_entries_empty (o : JsValue) paths :
  own o = ∅ → pick_entries o paths = [].
Proof.
  intros H. induction paths as [|p paths IH]; [done|].
  by rewrite pick_entries_cons, H, lookup_empty.
Qed.

Lemma get_lookup (o : Obj) k v : o !! k = Some v → get o k = v.
Proof. unfold get. by intros ->. Qed.

(** The guard on the archive folder, read off the body. *)
Lemma invalid_archive_folder_pick body :
  invalid_archive_folder (pick body ALIAS_SETTINGS_FIELDS) =
  match own body !! "mail_archive_folder" with
  | Some v => negb (is_null v || is_undefined v || isString v)
  | None => false
  end.
Proof.
  unfold invalid_archive_folder, hasOwnProperty, get.
  rewrite pick_lookup.
  rewrite decide_True by is_field.
  destruct (own body !! "mail_archive_folder") as [v|]; [|done].
  rewrite bool_decide_true by done. by destruct v.
Qed.

(** [serializeAliasSettings], key by key. *)
Lemma default_empty_lookup k settings j :
  default_empty k settings !! j =
  if decide (j = k) then
    if truthy (get settings k) then settings !! k else Some (JObj ∅)
  else settings !! j.
Proof.
  unfold default_empty.
  destruct (decide (j = k)) as [->|Hne];
    destruct (truthy (get settings k)); cbn [negb]; try done.
  - apply lookup_insert_eq.
  - by apply lookup_insert_ne.
Qed.

Lemma default_empty_lookup_eq k settings :
  default_empty k settings !! k =
  if truthy (get settings k) then settings !! k else Some (JObj ∅).
Proof. by rewrite default_empty_lookup, decide_True. Qed.

Lemma serializeAliasSettings_lookup alias k :
  serializeAliasSettings alias !! k =
  if decide (k ∈ ["shortcuts"; "label_settings"; "aliases_defaults"]) then
    if truthy (get alias k) then alias !! k else Some (JObj ∅)
  else if decide (k ∈ ALIAS_SETTINGS_FIELDS) then alias !! k
  else None.
Proof.
  unfold serializeAliasSettings. cbn zeta.
  assert (∀ j, j ∈ ["shortcuts"; "label_settings"; "aliases_defaults"] →
               pick (JObj alias) ALIAS_SETTINGS_FIELDS !! j = alias !! j) as Hp.
  { intros j Hj. rewrite pick_lookup. rewrite decide_True; [done|].
    revert Hj. rewrite !elem_of_cons.
    intros [->|[->|[->|?%elem_of_nil]]]; try done; is_field. }
  destruct (decide (k ∈ ["shortcuts"; "label_settings"; "aliases_defaults"]))
    as [Hk|Hk].
  - assert (∀ s : Obj, s !! k = alias !! k →
              default_empty k s !! k =
              if truthy (get alias k) then alias !! k else Some (JObj ∅)) as Hd.
    { intros s Hs. rewrite default_empty_lookup, decide_True by done.
      unfold get. by rewrite Hs. }
    revert Hk. rewrite !elem_of_cons.
    intros [->|[->|[->|?%elem_of_nil]]]; [| |  |done].
    + rewrite !default_empty_lookup, !(decide_False (P := _ = _)) by done.
      rewrite <- default_empty_lookup_eq. apply Hd, Hp. in_list.
    + rewrite default_empty_lookup, (decide_False (P := _ = _)) by done.
      apply Hd. rewrite default_empty_lookup, decide_False by done.
      apply Hp. in_list.
    + apply Hd.
      rewrite !default_empty_lookup, !(decide_False (P := _ = _)) by done.
      apply Hp. in_list.
  - rewrite !default_empty_lookup.
    rewrite !elem_of_cons in Hk.
    rewrite !decide_False by (intros ->; apply Hk; auto).
    by rewrite pick_lookup.
Qed.

Lemma populate_domain_ext w w' alias :
  domains w = domains w' → populate_domain w alias = populate_domain w' alias.
Proof. unfold populate_domain. by intros ->. Qed.

Lemma populate_domain_lookup w alias k :
  k ≠ "domain" → populate_domain w alias !! k = alias !! k.
Proof.
  intros Hk. unfold populate_domain.
  destruct (alias !! "domain") as [[]|]; try done.
  by apply lookup_insert_ne.
Qed.

(** The fetch and response of an alias session in closed form. *)
Lemma respondAlias_run ctx w :
  respondAlias ctx w =
  match prop (opt_prop (ctx_state ctx) "user") "alias_id" with
  | None => (inl TypeError, w)
  | Some id =>
      match lookup_alias w id with
      | None =>
          (inl (Boom_notFound "ALIAS_DOES_NOT_EXIST"), logged w [EvFindById id])
      | Some alias =>
          match aliasAccountBody ctx (populate_domain w alias) with
          | None => (inl TypeError, logged w [EvFindById id])
          | Some body => (inr (JObj body), logged w [EvFindById id])
          end
      end
  end.
Proof.
  unfold respondAlias, bind at 1.
  destruct (prop _ "alias_id") as [id|]; [|done].
  unfold read at 1, ret at 1.
  unfold Aliases_findById_lean, bind, emit. cbn beta iota.
  rewrite lookup_alias_logged.
  destruct (lookup_alias w id) as [alias|]; [|done].
  cbn [fmap option_fmap option_map].
  rewrite (populate_domain_ext (logged w [EvFindById id]) w) by done.
  by destruct (aliasAccountBody _ _).
Qed.

Lemma prop_alias_id ctx id :
  prop (opt_prop (ctx_state ctx) "user") "alias_id" = Some id →
  id = ctx_alias_id ctx.
Proof. unfold ctx_alias_id, opt_prop at 2. by intros ->. Qed.

(** A settings field of the response is the serialized one. *)
Lemma aliasAccountBody_setting ctx alias body k :
  aliasAccountBody ctx alias = Some body →
  k ∈ ALIAS_SETTINGS_FIELDS →
  body !! k = serializeAliasSettings alias !! k.
Proof.
  unfold aliasAccountBody. cbn zeta.
  destruct (prop (get alias "domain") "name") as [dn|]; [|done].
  destruct (prop (get alias "domain") "id") as [di|]; [|done].
  cbn [mbind option_bind]. intros [= <-] Hk.
  destruct (serializeAliasSettings alias !! k) as [v|] eqn:Hv.
  - by apply lookup_union_Some_l.
  - rewrite lookup_union_r by done.
    repeat (rewrite lookup_insert_ne;
            [|intros <-; revert Hk; change (?x ∈ ?l → False) with (x ∉ l);
              not_field]).
    apply lookup_empty.
Qed.

(** C3. After two successive accepted updates whose payloads carry the
    label maps M1 and then M2, the stored [label_settings] is M2 itself:
    its keys are exactly those of M2, whatever M1 held, and M2 = {} leaves
    the stored registry empty.  The account payload serves it as stored. *)
Theorem label_settings_replaced ctx body1 body2 (m1 m2 : Obj) w w1 w2 :
  own body1 !! "label_settings" = Some (JObj m1) →
  own body2 !! "label_settings" = Some (JObj m2) →
  updateAliasSettingsForContext ctx body1 w = (inr (), w1) →
  updateAliasSettingsForContext ctx body2 w1 = (inr (), w2) →
  ∃ stored,
    lookup_alias w2 (ctx_alias_id ctx) = Some stored
    ∧ stored !! "label_settings" = Some (JObj m2)
    ∧ dom (own (get stored "label_settings")) = dom m2
    ∧ (m2 = ∅ → get stored "label_settings" = JObj ∅)
    ∧ serializeAliasSettings stored !! "label_settings" = Some (JObj m2).
Proof.
  intros _ H2 _ Hu2.
  destruct (update_ok _ _ _ _ Hu2) as (stored1 & Hs1 & _).
  eexists. split; [by eapply update_ok_lookup|].
  assert (apply_fields (pick_entries body2 ALIAS_SETTINGS_FIELDS) stored1
            !! "label_settings" = Some (JObj m2)) as Hl.
  { rewrite updated_fields_lookup, H2. by rewrite decide_True by is_field. }
  split; [done|]. unfold get at 1 2. rewrite Hl. cbn [default own].
  split; [done|]. split; [by intros ->|].
  rewrite serializeAliasSettings_lookup, decide_True by in_list.
  unfold get. by rewrite Hl.
Qed.

(** C4. After an accepted update, key by key of the stored record: a
    whitelisted key that the payload carries with a defined value (false,
    0 and the empty collections included) holds that value; a key absent
    from the payload, carried as undefined, or outside the whitelist holds
    what it held before.  The other records are untouched. *)
Theorem update_applies_defined_fields ctx body w w' :
  updateAliasSettingsForContext ctx body w = (inr (), w') →
  ∃ stored updated,
    lookup_alias w (ctx_alias_id ctx) = Some stored
    ∧ lookup_alias w' (ctx_alias_id ctx) = Some updated
    ∧ (∀ k, updated !! k =
            match own body !! k with
            | Some v =>
                if decide (k ∈ ALIAS_SETTINGS_FIELDS) then
                  if is_undefined v then stored !! k else Some v
                else stored !! k
            | None => stored !! k
            end)
    ∧ (∀ other, other ≠ id_string (ctx_alias_id ctx) →
                aliases w' !! other = aliases w !! other).
Proof.
  intros Hu. destruct (update_ok _ _ _ _ Hu) as (stored & Hs & _ & _ & Ha & _).
  exists stored, (apply_fields (pick_entries body ALIAS_SETTINGS_FIELDS) stored).
  split; [done|]. split; [by eapply update_ok_lookup|].
  split; [apply updated_fields_lookup|].
  intros other Hne. rewrite Ha. by apply lookup_insert_ne.
Qed.

Lemma own_Some_object (body : JsValue) k v :
  own body !! k = Some v → ∃ m, body = JObj m.
Proof. destruct body; cbn [own]; rewrite ?lookup_empty; try done; eauto. Qed.

Lemma object_body_valid (m : Obj) : invalid_body (JObj m) = false.
Proof. done. Qed.

Lemma unauthorized_client_error e : status e = 401%Z → client_error e = true.
Proof. unfold client_error. by intros ->. Qed.

(** C5. For a payload that carries [mail_archive_folder] with a defined
    value (an explicit undefined counts as absent), the guard on the field
    lets the update pass exactly when the value is null or a string.  For
    any other value the update fails with a client error, nothing is set
    and the stored records are as they were; once the alias is resolved
    and found the error is the bad request
    SETTINGS_ARCHIVE_FOLDER_INVALID.  For null or a string that error is
    never raised, and where the schema accepts the value [save] does not
    reject the field either. *)
Theorem archive_folder_guard ctx body v w :
  own body !! "mail_archive_folder" = Some v →
  v ≠ JUndefined →
  let rejected := invalid_archive_folder (pick body ALIAS_SETTINGS_FIELDS) in
  (rejected = false ↔ v = JNull ∨ ∃ s, v = JStr s)
  ∧ (rejected = true →
     ∃ e w',
       updateAliasSettingsForContext ctx body w = (inl e, w')
       ∧ client_error e = true
       ∧ aliases w' = aliases w
       ∧ (∀ c, c ∈ log w' → c ∈ log w ∨ is_set c = false)
       ∧ (∀ ac stored,
            getAliasContext ctx = inr ac →
            lookup_alias w (aliasId ac) = Some stored →
            e = Boom_badRequest "SETTINGS_ARCHIVE_FOLDER_INVALID"))
  ∧ (rejected = false →
     ∀ e w',
       updateAliasSettingsForContext ctx body w = (inl e, w') →
       e ≠ Boom_badRequest "SETTINGS_ARCHIVE_FOLDER_INVALID"
       ∧ (validate_path "mail_archive_folder" v = true →
          ∀ bad, e = ValidationError bad → "mail_archive_folder" ∉ bad)).
Proof.
  intros Hv Hdef rejected. subst rejected.
  destruct (own_Some_object _ _ _ Hv) as [m ->].
  rewrite invalid_archive_folder_pick, Hv.
  split; [|split].
  - split.
    + destruct v; try done; eauto.
    + by intros [->|[s ->]].
  - intros Hrej. rewrite updateAliasSettingsForContext_run.
    rewrite invalid_archive_folder_pick, Hv, Hrej, object_body_valid.
    destruct (getAliasContext ctx) as [e0|ac] eqn:Hac.
    { exists e0, w. split; [done|].
      split; [by eapply unauthorized_client_error, getAliasContext_inl|].
      split; [done|]. split; [by left | done]. }
    cbn zeta. destruct (lookup_alias w (aliasId ac)) as [stored|] eqn:Hs.
    + eexists _, _. split; [done|]. split; [done|]. split; [done|].
      split; [|done].
      intros c [?|Hc%list_elem_of_singleton]%elem_of_app;
        [by left | right; by rewrite Hc].
    + eexists _, _. split; [done|]. split; [done|]. split; [done|].
      split; [|by intros ac' stored' [= <-]; rewrite Hs].
      intros c [?|Hc%list_elem_of_singleton]%elem_of_app;
        [by left | right; by rewrite Hc].
  - intros Hok e w'. rewrite updateAliasSettingsForContext_run.
    rewrite invalid_archive_folder_pick, Hv, Hok, object_body_valid.
    destruct (getAliasContext ctx) as [e0|ac] eqn:Hac.
    { intros [= <- <-]. split; [|by intros _ bad ->; apply getAliasContext_inl in Hac].
      intros ->. by apply getAliasContext_inl in Hac. }
    cbn zeta.
    destruct (lookup_alias w (aliasId ac)) as [stored|]; [|by intros [= <- <-]].
    destruct (invalid_paths _) as [|bad1 bad'] eqn:Hbad; [done|].
    intros [= <- <-]. split; [done|]. intros Hvalid bad [= <-].
    rewrite <- Hbad. unfold Users.invalid_paths.
    intros [_ Hf]%list_elem_of_In%filter_In. revert Hf.
    cbn [updated_doc doc_fields]. unfold get.
    rewrite updated_fields_lookup, Hv, decide_True by is_field.
    apply is_undefined_false in Hdef. rewrite Hdef. cbn [default].
    unfold id. by rewrite Hvalid.
Qed.

(** C6, on the schema rule modelled from the spec.  When the schema
    validates [mail_messages_per_page] against the closed set of page
    sizes, every payload that carries the value 30 is rejected with a
    client error and nothing is stored; and for a resolved, stored alias
    and a payload whose other fields are acceptable, the values 50 and 100
    are accepted and stored. *)
Theorem page_size_validated ctx (m : Obj) w ac stored :
  (∀ v, validate_path "mail_messages_per_page" v = Schema.page_size_rule v) →
  getAliasContext ctx = inr ac →
  lookup_alias w (aliasId ac) = Some stored →
  invalid_archive_folder (pick (JObj m) ALIAS_SETTINGS_FIELDS) = false →
  (∀ k v, k ∈ ALIAS_SETTINGS_FIELDS → k ≠ "mail_messages_per_page" →
          m !! k = Some v → v ≠ JUndefined → validate_path k v = true) →
  (∀ ctx0 body0 w0,
     own body0 !! "mail_messages_per_page" = Some (JNum 30) →
     ∃ e w',
       updateAliasSettingsForContext ctx0 body0 w0 = (inl e, w')
       ∧ client_error e = true ∧ aliases w' = aliases w0)
  ∧ (∀ n, n = 50%Z ∨ n = 100%Z →
     ∃ w' updated,
       updateAliasSettingsForContext ctx
         (JObj (<["mail_messages_per_page" := JNum n]> m)) w = (inr (), w')
       ∧ lookup_alias w' (aliasId ac) = Some updated
       ∧ updated !! "mail_messages_per_page" = Some (JNum n)).
Proof.
  intros Hrule Hac Hs Harch Hrest. split.
  - intros ctx0 body0 w0 H30.
    destruct (updateAliasSettingsForContext ctx0 body0 w0) as [[e|u] w'] eqn:Hu.
    + exists e, w'. split; [done|].
      destruct (failed_update_writes_nothing _ _ _ _ _ Hu) as (Ha & _).
      split; [|done]. revert Hu. rewrite updateAliasSettingsForContext_run.
      destruct (getAliasContext ctx0) as [e0|ac0] eqn:Hac0.
      { intros [= <- _]. by eapply unauthorized_client_error, getAliasContext_inl. }
      cbn zeta. destruct (invalid_body body0); [by intros [= <- _]|].
      destruct (lookup_alias w0 (aliasId ac0)); [|by intros [= <- _]].
      destruct (invalid_archive_folder (pick body0 _)); [by intros [= <- _]|].
      destruct (invalid_paths _); [done | by intros [= <- _]].
    + exfalso. revert Hu. rewrite updateAliasSettingsForContext_run.
      destruct (getAliasContext ctx0) as [e0|ac0]; [done|].
      cbn zeta. destruct (invalid_body body0); [done|].
      destruct (lookup_alias w0 (aliasId ac0)) as [stored0|]; [|done].
      destruct (invalid_archive_folder (pick body0 _)); [done|].
      destruct (invalid_paths _) eqn:Hp; [|done]. intros _.
      pose proof (proj1 (invalid_paths_nil _) Hp "mail_messages_per_page") as Hk.
      cbn [updated_doc doc_modified doc_fields] in Hk.
      rewrite Hrule in Hk. unfold get in Hk.
      rewrite updated_fields_lookup, H30 in Hk.
      rewrite decide_True in Hk by is_field. cbn in Hk.
      assert (false = true) as Hf; [|done]. apply Hk.
      apply elem_of_defined_keys. exists (JNum 30). split; [|done].
      apply elem_of_pick_entries. split; [is_field | done].
  - intros n Hn.
    set (body := JObj (<["mail_messages_per_page" := JNum n]> m)).
    assert (invalid_paths (updated_doc (aliasId ac) stored body) = []) as Hp.
    { apply invalid_paths_nil. intros k Hk.
      cbn [updated_doc doc_modified doc_fields] in *.
      apply elem_of_defined_keys in Hk as (v & [Hin Hv]%elem_of_pick_entries & Hdef).
      unfold get. rewrite updated_fields_lookup, Hv.
      rewrite decide_True by done.
      apply is_undefined_false in Hdef as Hdef'. rewrite Hdef'. cbn [default].
      destruct (decide (k = "mail_messages_per_page")) as [->|Hne].
      - subst body. cbn [own] in Hv. rewrite lookup_insert_eq in Hv.
        injection Hv as <-. rewrite Hrule. by destruct Hn as [->| ->].
      - subst body. cbn [own] in Hv. rewrite lookup_insert_ne in Hv by done.
        by eapply Hrest. }
    assert (invalid_archive_folder (pick body ALIAS_SETTINGS_FIELDS) = false)
      as Harch'.
    { revert Harch. rewrite !invalid_archive_folder_pick. subst body.
      cbn [own]. by rewrite lookup_insert_ne. }
    eexists _, _. split; [|split].
    + rewrite updateAliasSettingsForContext_run, Hac. cbn zeta.
      rewrite Hs, Harch', Hp. done.
    + by eapply lookup_alias_written.
    + cbn [updated_doc doc_fields]. rewrite updated_fields_lookup.
      subst body. cbn [own].
      rewrite lookup_insert_eq. by rewrite decide_True by is_field.
Qed.

(** Every [set] logged by an update is on a whitelisted key, with the
    defined value the body carries for it. *)
Lemma update_sets_whitelisted ctx body w r w' key value :
  updateAliasSettingsForContext ctx body w = (r, w') →
  EvSet key value ∈ log w' →
  EvSet key value ∈ log w
  ∨ (key ∈ ALIAS_SETTINGS_FIELDS ∧ own body !! key = Some value
     ∧ value ≠ JUndefined).
Proof.
  assert (∀ tl, EvSet key value ∈
                  set_events (pick_entries body ALIAS_SETTINGS_FIELDS) ++ tl →
                (∀ c, c ∈ tl → is_set c = false) →
                key ∈ ALIAS_SETTINGS_FIELDS ∧ own body !! key = Some value
                ∧ value ≠ JUndefined) as Hsets.
  { intros tl [Hin|Hin]%elem_of_app Htl.
    - apply set_events_are_sets in Hin as (k & v & [= -> ->] & Hin & Hdef).
      by apply elem_of_pick_entries in Hin as [? ?].
    - by apply Htl in Hin. }
  rewrite updateAliasSettingsForContext_run.
  destruct (getAliasContext ctx) as [e0|ac]; [intros [= <- <-]; by left|].
  cbn zeta. destruct (invalid_body body); [intros [= <- <-]; by left|].
  destruct (lookup_alias w (aliasId ac)).
  2:{ intros [= <- <-] [?|Hc%list_elem_of_singleton]%elem_of_app;
        [by left | done]. }
  destruct (invalid_archive_folder _).
  { intros [= <- <-] [?|Hc%list_elem_of_singleton]%elem_of_app;
      [by left | done]. }
  destruct (invalid_paths _); intros [= <- <-]; cbn [log logged];
    intros [?|[?|Hin]%elem_of_cons]%elem_of_app; try (by left); try done;
    right; (eapply Hsets; [exact Hin|]); intros c; rewrite !elem_of_cons;
    intros Hc; repeat destruct Hc as [->|Hc]; try done;
    by apply elem_of_nil in Hc.
Qed.

(** C7. The whitelist has 14 names.  A top-level key outside it is
    ignored: the update does exactly what it does on the payload without
    the key (the same outcome, the same calls, the same store), every
    field set is in the whitelist, and after an accepted update the
    stored record holds under that key what it held before. *)
Theorem unknown_keys_ignored ctx (m : Obj) k v w :
  k ∉ ALIAS_SETTINGS_FIELDS →
  length ALIAS_SETTINGS_FIELDS = 14
  ∧ updateAliasSettingsForContext ctx (JObj (<[k := v]> m)) w =
    updateAliasSettingsForContext ctx (JObj (delete k m)) w
  ∧ (∀ r w' key value,
       updateAliasSettingsForContext ctx (JObj (<[k := v]> m)) w = (r, w') →
       EvSet key value ∈ log w' →
       EvSet key value ∈ log w ∨ key ∈ ALIAS_SETTINGS_FIELDS)
  ∧ (∀ w' stored updated,
       updateAliasSettingsForContext ctx (JObj (<[k := v]> m)) w = (inr (), w') →
       lookup_alias w (ctx_alias_id ctx) = Some stored →
       lookup_alias w' (ctx_alias_id ctx) = Some updated →
       updated !! k = stored !! k).
Proof.
  intros Hk. split; [by vm_compute|]. split; [|split].
  - assert (pick_entries (JObj (<[k := v]> m)) ALIAS_SETTINGS_FIELDS =
            pick_entries (JObj (delete k m)) ALIAS_SETTINGS_FIELDS) as He.
    { apply pick_entries_ext. intros j Hj. cbn [own].
      assert (k ≠ j) by congruence.
      by rewrite lookup_insert_ne, lookup_delete_ne. }
    unfold updateAliasSettingsForContext, pick. rewrite He.
    by rewrite !object_body_valid.
  - intros r w' key value Hu Hin.
    destruct (update_sets_whitelisted _ _ _ _ _ _ _ Hu Hin) as [?|(? & _)];
      [by left | by right].
  - intros w' stored updated Hu Hs Hs'.
    rewrite (update_ok_lookup _ _ _ _ _ Hu Hs) in Hs'. injection Hs' as <-.
    rewrite updated_fields_lookup. cbn [own]. rewrite lookup_insert_eq.
    by rewrite decide_False.
Qed.

(** C8 (amended). With the alias of the session resolved but no record
    stored under it: [retrieve] fails with NotFound, and so does the
    fetch that [update] makes after its save; the fetch that
    [updateAliasSettingsForContext] makes first fails with Unauthorized
    (SETTINGS_INVALID_ALIAS_ID), which is what [update] then answers. *)
Theorem missing_alias_errors ctx w id :
  alias_session ctx = true →
  prop (opt_prop (ctx_state ctx) "user") "alias_id" = Some id →
  lookup_alias w id = None →
  (retrieve ctx w).1 = inl (Boom_notFound "ALIAS_DOES_NOT_EXIST")
  ∧ (respondAlias ctx w).1 = inl (Boom_notFound "ALIAS_DOES_NOT_EXIST")
  ∧ (∀ w0, update ctx w0 =
           match updateAliasSettingsForContext ctx (ctx_request_body ctx) w0 with
           | (inl e, w1) => (inl e, w1)
           | (inr _, w1) => respondAlias ctx w1
           end)
  ∧ (∀ ac, getAliasContext ctx = inr ac →
           invalid_body (ctx_request_body ctx) = false →
           (update ctx w).1 = inl (Boom_unauthorized "SETTINGS_INVALID_ALIAS_ID")).
Proof.
  intros Hsess Hid Hnone.
  assert ((respondAlias ctx w).1 = inl (Boom_notFound "ALIAS_DOES_NOT_EXIST"))
    as Hr by (by rewrite respondAlias_run, Hid, Hnone).
  split; [by unfold retrieve; rewrite Hsess|]. split; [done|].
  split.
  - intros w0. unfold update. rewrite Hsess. unfold bind.
    by destruct (updateAliasSettingsForContext _ _ _) as [[?|?] ?].
  - intros ac Hac Hbody. unfold update. rewrite Hsess. unfold bind.
    rewrite updateAliasSettingsForContext_run, Hac. cbn zeta.
    rewrite Hbody.
    apply getAliasContext_inr in Hac as (-> & _ & _).
    apply prop_alias_id in Hid as <-. by rewrite Hnone.
Qed.

(** C9 (amended). In every assembled payload, [storage_quota] is the
    [max_quota_per_alias] of the alias's domain when that value is truthy
    (present and not zero), and [config.maxQuotaPerAlias] when it is
    absent or falsy. *)
Theorem storage_quota_rule ctx alias payload :
  aliasAccountBody ctx alias = Some payload →
  payload !! "storage_quota" =
  Some (let quota := opt_prop (get alias "domain") "max_quota_per_alias" in
        if truthy quota then quota else config_maxQuotaPerAlias).
Proof.
  unfold aliasAccountBody. cbn zeta.
  destruct (prop (get alias "domain") "name") as [dn|] eqn:Hdn; [|done].
  destruct (prop (get alias "domain") "id") as [di|]; [|done].
  cbn [mbind option_bind]. intros [= <-].
  rewrite lookup_union_r.
  2:{ rewrite serializeAliasSettings_lookup.
      rewrite decide_False
        by (rewrite !elem_of_cons; by intros [?|[?|[?|?%elem_of_nil]]]).
      by rewrite decide_False by not_field. }
  repeat (rewrite lookup_insert_ne by done). rewrite lookup_insert_eq.
  f_equal. unfold or_else, and_then.
  destruct (truthy (get alias "domain")) eqn:Hd; [done|].
  rewrite Hd.
  assert (opt_prop (get alias "domain") "max_quota_per_alias" = JUndefined)
    as ->; [|done].
  destruct (get alias "domain"); try done.
Qed.

Lemma respondAlias_outcome_ext ctx w w' :
  aliases w = aliases w' → domains w = domains w' →
  (respondAlias ctx w).1 = (respondAlias ctx w').1.
Proof.
  intros Ha Hd. rewrite !respondAlias_run.
  destruct (prop _ "alias_id") as [id|]; [|done].
  assert (lookup_alias w id = lookup_alias w' id) as <-.
  { destruct id; try done. cbn [lookup_alias]. by rewrite Ha. }
  destruct (lookup_alias w id) as [alias|]; [|done].
  rewrite (populate_domain_ext w w') by done.
  by destruct (aliasAccountBody _ _).
Qed.




Lemma alias_id_read ctx :
  truthy (ctx_alias_id ctx) = true →
  prop (opt_prop (ctx_state ctx) "user") "alias_id" = Some (ctx_alias_id ctx).
Proof.
  unfold ctx_alias_id. generalize (opt_prop (ctx_state ctx) "user").
  intros u. unfold opt_prop. by destruct (prop u "alias_id").
Qed.

(** With the alias stored and its domain stored, the fetch and response
    of an alias session return a payload. *)
Lemma respond_returns ctx w alias d domain :
  truthy (ctx_alias_id ctx) = true →
  lookup_alias w (ctx_alias_id ctx) = Some alias →
  alias !! "domain" = Some (JStr d) →
  domains w !! d = Some domain →
  ∃ payload,
    respondAlias ctx w
    = (inr (JObj payload), logged w [EvFindById (ctx_alias_id ctx)])
    ∧ aliasAccountBody ctx (populate_domain w alias) = Some payload.
Proof.
  intros Ht Hs Hdom Hd. rewrite respondAlias_run, (alias_id_read _ Ht), Hs.
  assert (get (populate_domain w alias) "domain"
          = JObj (pick (JObj domain) domain_projection)) as Hpd.
  { unfold populate_domain, get. by rewrite Hdom, Hd, lookup_insert_eq. }
  destruct (aliasAccountBody ctx (populate_domain w alias)) as [payload|] eqn:Hp.
  - by exists payload.
  - exfalso. revert Hp. unfold Users.aliasAccountBody. cbn zeta.
    by rewrite Hpd.
Qed.

Lemma account_body_object ctx alias payload :
  aliasAccountBody ctx alias = Some payload →
  payload !! "object" = Some (JStr "alias").
Proof.
  unfold Users.aliasAccountBody. cbn zeta.
  destruct (prop (get alias "domain") "name") as [dn|]; [|done].
  destruct (prop (get alias "domain") "id") as [di|]; [|done].
  cbn [mbind option_bind]. intros [= <-].
  rewrite lookup_union_r.
  2:{ rewrite serializeAliasSettings_lookup.
      rewrite decide_False
        by (rewrite !elem_of_cons; by intros [?|[?|[?|?%elem_of_nil]]]).
      by rewrite decide_False by not_field. }
  rewrite lookup_insert_ne by done. apply lookup_insert_eq.
Qed.

Lemma served_as_stored w alias k :
  k ∈ ALIAS_SETTINGS_FIELDS →
  serializeAliasSettings (populate_domain w alias) !! k
  = serializeAliasSettings alias !! k.
Proof.
  intros Hk.
  assert (k ≠ "domain") as Hd by (intros ->; revert Hk; not_field).
  rewrite !serializeAliasSettings_lookup. unfold get.
  by rewrite !populate_domain_lookup.
Qed.

Lemma update_error_is_client_error ctx body w e w' :
  updateAliasSettingsForContext ctx body w = (inl e, w') →
  client_error e = true.
Proof.
  rewrite updateAliasSettingsForContext_run.
  destruct (getAliasContext ctx) as [e0|ac] eqn:Hac.
  { intros [= <- _]. by eapply unauthorized_client_error, getAliasContext_inl. }
  cbn zeta. destruct (invalid_body body); [by intros [= <- _]|].
  destruct (lookup_alias w (aliasId ac)); [|by intros [= <- _]].
  destruct (invalid_archive_folder (pick body _)); [by intros [= <- _]|].
  destruct (invalid_paths _); [done | by intros [= <- _]].
Qed.

(** The paths that [save] refuses are the whitelisted fields the payload
    carries with a defined value that the rule of the schema refuses. *)
Lemma elem_of_invalid_paths aid stored body k :
  k ∈ invalid_paths (updated_doc aid stored body) ↔
  ∃ v, k ∈ ALIAS_SETTINGS_FIELDS ∧ own body !! k = Some v
       ∧ v ≠ JUndefined ∧ validate_path k v = false.
Proof.
  unfold Users.invalid_paths. rewrite list_elem_of_In, filter_In.
  rewrite <- list_elem_of_In. cbn [updated_doc doc_modified doc_fields].
  rewrite elem_of_defined_keys. split.
  - intros [(v & [Hk Hv]%elem_of_pick_entries & Hdef) Hbad].
    exists v. do 3 (split; [done|]). revert Hbad. unfold get.
    rewrite updated_fields_lookup, Hv, decide_True by done.
    apply is_undefined_false in Hdef. rewrite Hdef. cbn [default].
    unfold id. by destruct (validate_path k v).
  - intros (v & Hk & Hv & Hdef & Hbad). split.
    + exists v. split; [by apply elem_of_pick_entries | done].
    + unfold get. rewrite updated_fields_lookup, Hv, decide_True by done.
      apply is_undefined_false in Hdef. rewrite Hdef. cbn [default].
      unfold id. by rewrite Hbad.
Qed.

Lemma fails_validation_object body :
  fails_validation validate_path body → ∃ m, body = JObj m.
Proof.
  intros [Harch|(k & v & _ & Hv & _)].
  - rewrite invalid_archive_folder_pick in Harch.
    destruct (own body !! "mail_archive_folder") as [v|] eqn:Hv; [|done].
    by eapply own_Some_object.
  - by eapply own_Some_object.
Qed.

(** C1 (amended). If a field of the payload fails validation (the type
    guard on [mail_archive_folder], or the rule of the schema on a
    whitelisted field carried with a defined value), the update aborts
    with a client error, nothing is written and the stored records are as
    they were: no field is applied in part.  Once the alias is resolved
    and found, the error names what failed: SETTINGS_ARCHIVE_FOLDER_INVALID
    for the guard, otherwise a validation error that lists exactly the
    fields whose value the schema refuses.  The guard is detected before
    any field is set; a failure of the schema is detected by [save], after
    the defined fields of the payload have been set on the document in
    memory and before anything is written.  [update] answers the same
    error and leaves the same store. *)
Theorem invalid_update_aborts ctx body w :
  fails_validation validate_path body →
  ∃ e w',
    updateAliasSettingsForContext ctx body w = (inl e, w')
    ∧ client_error e = true
    ∧ aliases w' = aliases w
    ∧ domains w' = domains w
    ∧ (∃ calls,
         log w' = log w ++ calls
         ∧ (∀ c, c ∈ calls → is_write c = false)
         ∧ ((∀ bad, e ≠ ValidationError bad) →
            ∀ c, c ∈ calls → is_set c = false)
         ∧ (∀ bad, e = ValidationError bad →
              calls = EvFindById (ctx_alias_id ctx)
                      :: set_events (pick_entries body ALIAS_SETTINGS_FIELDS)
                      ++ [EvSave (id_string (ctx_alias_id ctx))]))
    ∧ (∀ ac stored,
         getAliasContext ctx = inr ac →
         lookup_alias w (aliasId ac) = Some stored →
         if invalid_archive_folder (pick body ALIAS_SETTINGS_FIELDS)
         then e = Boom_badRequest "SETTINGS_ARCHIVE_FOLDER_INVALID"
         else ∃ bad,
                e = ValidationError bad
                ∧ ∀ k, k ∈ bad ↔
                       ∃ v, k ∈ ALIAS_SETTINGS_FIELDS ∧ own body !! k = Some v
                            ∧ v ≠ JUndefined ∧ validate_path k v = false)
    ∧ (alias_session ctx = true → ctx_request_body ctx = body →
       update ctx w = (inl e, w')).
Proof.
  intros Hfails.
  destruct (fails_validation_object _ Hfails) as [m ->].
  assert (∀ ac stored,
            getAliasContext ctx = inr ac →
            lookup_alias w (aliasId ac) = Some stored →
            updateAliasSettingsForContext ctx (JObj m) w =
            if invalid_archive_folder (pick (JObj m) ALIAS_SETTINGS_FIELDS)
            then (inl (Boom_badRequest "SETTINGS_ARCHIVE_FOLDER_INVALID"),
                  logged w [EvFindById (aliasId ac)])
            else (inl (ValidationError
                         (invalid_paths (updated_doc (aliasId ac) stored (JObj m)))),
                  logged w (EvFindById (aliasId ac)
                            :: set_events (pick_entries (JObj m) ALIAS_SETTINGS_FIELDS)
                            ++ [EvSave (id_string (aliasId ac))]))) as Hrun.
  { intros ac stored Hac Hs.
    rewrite updateAliasSettingsForContext_run, Hac. cbn zeta.
    rewrite object_body_valid, Hs.
    destruct (invalid_archive_folder (pick (JObj m) _)) eqn:Harch; [done|].
    destruct (invalid_paths _) as [|bad1 bad] eqn:Hbad; [|done].
    exfalso. destruct Hfails as [Hf|(k & v & Hk & Hv & Hdef & Hbadv)];
      [congruence|].
    assert (k ∈ invalid_paths (updated_doc (aliasId ac) stored (JObj m))) as Hin
      by (apply elem_of_invalid_paths; by exists v).
    rewrite Hbad in Hin. by apply elem_of_nil in Hin. }
  destruct (updateAliasSettingsForContext ctx (JObj m) w) as [[e|u] w'] eqn:Hu.
  2:{ exfalso. destruct u.
      destruct (update_ok _ _ _ _ Hu) as (stored & Hs & _).
      destruct (getAliasContext ctx) as [e0|ac] eqn:Hac.
      { revert Hu. by rewrite updateAliasSettingsForContext_run, Hac. }
      apply getAliasContext_inr in Hac as (Hid & _ & _).
      rewrite <- Hid in Hs. pose proof (Hrun ac stored eq_refl Hs) as Hno.
      by destruct (invalid_archive_folder _). }
  exists e, w'. split; [done|].
  split; [by eapply update_error_is_client_error|].
  destruct (failed_update_writes_nothing _ _ _ _ _ Hu) as (Ha & Hd & Hcalls).
  do 3 (split; [done|]). split.
  - intros ac stored Hac Hs. pose proof (Hrun ac stored Hac Hs) as Hrun'.
    destruct (invalid_archive_folder (pick (JObj m) _)).
    + by injection Hrun' as -> _.
    + injection Hrun' as -> _. eexists. split; [done|].
      intros k. apply elem_of_invalid_paths.
  - intros Hsess Hreq. unfold Users.update. rewrite Hsess, Hreq.
    unfold bind. by rewrite Hu.
Qed.


(** C10. A body that is absent, null or an array passes the guard on the
    body, which stops only a truthy value that is not an object.  With
    the alias resolved and stored together with its domain, the update
    then sets no field, still calls [save], which writes the record as it
    was, and [update] returns the assembled payload, the one [retrieve]
    returns on the same store: every settings field is served from the
    record as it was before the call, and the record is unchanged. *)
Theorem bodyless_update ctx body w ac stored d domain :
  body = JUndefined ∨ body = JNull ∨ (∃ l, body = JArr l) →
  getAliasContext ctx = inr ac →
  lookup_alias w (aliasId ac) = Some stored →
  alias_session ctx = true →
  ctx_request_body ctx = body →
  stored !! "domain" = Some (JStr d) →
  domains w !! d = Some domain →
  invalid_body body = false
  ∧ (∀ b, invalid_body b = true → truthy b = true ∧ typeof b ≠ "object")
  ∧ pick_entries body ALIAS_SETTINGS_FIELDS = []
  ∧ updateAliasSettingsForContext ctx body w =
      (inr (), logged w [EvFindById (aliasId ac);
                         EvSave (id_string (aliasId ac));
                         EvWrite (id_string (aliasId ac))])
  ∧ ∃ payload,
      update ctx w
      = (inr (JObj payload),
         logged w [EvFindById (aliasId ac);
                   EvSave (id_string (aliasId ac));
                   EvWrite (id_string (aliasId ac));
                   EvFindById (aliasId ac)])
      ∧ retrieve ctx w
        = (inr (JObj payload), logged w [EvFindById (aliasId ac)])
      ∧ aliasAccountBody ctx (populate_domain w stored) = Some payload
      ∧ payload !! "object" = Some (JStr "alias")
      ∧ (∀ k, k ∈ ALIAS_SETTINGS_FIELDS →
              payload !! k = serializeAliasSettings stored !! k)
      ∧ lookup_alias (update ctx w).2 (aliasId ac) = Some stored.
Proof.
  intros Hbody Hac Hs Hsess Hreq Hdom Hd.
  assert (invalid_body body = false) as Hvalid.
  { by destruct Hbody as [->|[->|[l ->]]]. }
  assert (pick_entries body ALIAS_SETTINGS_FIELDS = []) as Hpick.
  { apply pick_entries_empty. by destruct Hbody as [->|[->|[l ->]]]. }
  assert (updateAliasSettingsForContext ctx body w =
            (inr (), logged w [EvFindById (aliasId ac);
                               EvSave (id_string (aliasId ac));
                               EvWrite (id_string (aliasId ac))])) as Hrun.
  { rewrite updateAliasSettingsForContext_run, Hac. cbn zeta.
    rewrite Hvalid, Hs. unfold invalid_archive_folder, hasOwnProperty, pick.
    rewrite Hpick. cbn [list_to_map foldr]. rewrite lookup_empty.
    rewrite bool_decide_false by (by intros [? ?]). cbn [andb].
    unfold Users.invalid_paths, updated_doc, set_events.
    rewrite Hpick. cbn [defined_entries List.filter fmap list_fmap
                        doc_modified doc_fields doc_id apply_fields foldl app].
    unfold logged. f_equal. f_equal.
    apply insert_id. by apply lookup_alias_Some in Hs as [_ ?]. }
  split; [done|]. split.
  { intros b [Ht Hn]%andb_true_iff. split; [done|].
    intros Heq. by rewrite Heq in Hn. }
  do 2 (split; [done|]).
  apply getAliasContext_inr in Hac as (Hid & Ht & _). rewrite Hid in *.
  destruct (respond_returns _ _ _ _ _ Ht Hs Hdom Hd) as (payload & Hr & Hb).
  set (w1 := logged w [EvFindById (ctx_alias_id ctx);
                       EvSave (id_string (ctx_alias_id ctx));
                       EvWrite (id_string (ctx_alias_id ctx))]) in *.
  assert (lookup_alias w1 (ctx_alias_id ctx) = Some stored) as Hs1
    by (by subst w1; rewrite lookup_alias_logged).
  destruct (respond_returns ctx w1 stored d domain Ht Hs1 Hdom Hd)
    as (payload1 & Hr1 & Hb1).
  rewrite (populate_domain_ext w1 w) in Hb1 by done.
  assert (payload1 = payload) as -> by congruence.
  assert (update ctx w
          = (inr (JObj payload), logged w1 [EvFindById (ctx_alias_id ctx)]))
    as Hupd.
  { unfold Users.update. rewrite Hsess, Hreq. unfold bind.
    by rewrite Hrun, Hr1. }
  exists payload. split.
  { rewrite Hupd. subst w1. by rewrite logged_logged. }
  split; [by unfold Users.retrieve; rewrite Hsess|].
  split; [done|]. split; [by eapply account_body_object|].
  split.
  - intros k Hk. rewrite (aliasAccountBody_setting _ _ _ _ Hb Hk).
    by apply served_as_stored.
  - rewrite Hupd. cbn [snd]. by rewrite lookup_alias_logged.
Qed.

End Properties.

(** ** The claims on the concrete store *)

(** C1, the claim as stated fails: the payload
    {appearance_theme: "dark", mail_messages_per_page: 30} is rejected by
    the validation of [save], and by then both fields have been set on the
    document. *)
Lemma validation_after_sets_counterexample :
  let run := Example.updateAliasSettings Example.theme_and_page_30
                                         Example.world in
  run.1 = inl (ValidationError ["mail_messages_per_page"])
  ∧ log run.2 = [ EvFindById (JStr Example.alias_id);
                  EvSet "appearance_theme" (JStr "dark");
                  EvSet "mail_messages_per_page" (JNum 30);
                  EvSave Example.alias_id ]
  ∧ ¬ (∀ c, c ∈ log run.2 → is_set c = false).
Proof.
  cbn zeta. split; [by vm_compute|]. split; [by vm_compute|].
  intros H. specialize (H (EvSet "appearance_theme" (JStr "dark"))).
  assert (true = false) as Hf; [|done]. apply H.
  vm_compute. apply list_elem_of_further, list_elem_of_here.
Qed.

Lemma invalid_update_aborts_witness :
  ∃ e w',
    Example.updateAliasSettings Example.theme_and_page_30 Example.world
    = (inl e, w')
    ∧ client_error e = true
    ∧ aliases w' = aliases Example.world
    ∧ domains w' = domains Example.world
    ∧ Example.update Example.theme_and_page_30 Example.world = (inl e, w').
Proof.
  destruct (invalid_update_aborts
              Example.isValidObjectId Schema.rule Example.quota
              "given_name" "family_name" Example.save_user
              (Example.ctx Example.theme_and_page_30)
              Example.theme_and_page_30 Example.world)
    as (e & w' & Hrun & Hclient & Haliases & Hdomains & _ & _ & Hupdate).
  - right. exists "mail_messages_per_page", (JNum 30).
    split; [is_field|]. split; [reflexivity|].
    split; [discriminate | reflexivity].
  - exists e, w'. split; [exact Hrun|]. split; [exact Hclient|].
    split; [exact Haliases|]. split; [exact Hdomains|].
    apply Hupdate; reflexivity.
Defined.



Lemma label_settings_replaced_witness :
  let w1 := (Example.updateAliasSettings
               (Example.labels Example.label_work) Example.world).2 in
  let w2 := (Example.updateAliasSettings (Example.labels ∅) w1).2 in
  ∃ stored,
    lookup_alias w2 (JStr Example.alias_id) = Some stored
    ∧ stored !! "label_settings" = Some (JObj ∅)
    ∧ dom (own (get stored "label_settings")) = dom (∅ : Obj)
    ∧ ((∅ : Obj) = ∅ → get stored "label_settings" = JObj ∅)
    ∧ serializeAliasSettings stored !! "label_settings" = Some (JObj ∅).
Proof.
  cbn zeta.
  apply (label_settings_replaced
           Example.isValidObjectId Schema.rule (Example.ctx JUndefined)
           (Example.labels Example.label_work) (Example.labels ∅)
           Example.label_work ∅ Example.world
           (Example.updateAliasSettings
              (Example.labels Example.label_work) Example.world).2
           (Example.updateAliasSettings (Example.labels ∅)
              (Example.updateAliasSettings
                 (Example.labels Example.label_work) Example.world).2).2);
    vm_compute; reflexivity.
Defined.

Lemma update_applies_defined_fields_witness :
  let w' := (Example.updateAliasSettings Example.falsy_fields
                                         Example.world).2 in
  ∃ stored updated,
    lookup_alias Example.world (JStr Example.alias_id) = Some stored
    ∧ lookup_alias w' (JStr Example.alias_id) = Some updated
    ∧ (∀ k, updated !! k =
            match own Example.falsy_fields !! k with
            | Some v =>
                if decide (k ∈ ALIAS_SETTINGS_FIELDS) then
                  if is_undefined v then stored !! k else Some v
                else stored !! k
            | None => stored !! k
            end)
    ∧ (∀ other, other ≠ Example.alias_id →
                aliases w' !! other = aliases Example.world !! other).
Proof.
  cbn zeta.
  apply (update_applies_defined_fields
           Example.isValidObjectId Schema.rule (Example.ctx JUndefined)
           Example.falsy_fields Example.world
           (Example.updateAliasSettings Example.falsy_fields Example.world).2).
  vm_compute; reflexivity.
Defined.

Lemma archive_folder_guard_witness :
  (Example.updateAliasSettings (Example.archive_folder (JNum 12345))
                               Example.world).1
  = inl (Boom_badRequest "SETTINGS_ARCHIVE_FOLDER_INVALID").
Proof.
  destruct (archive_folder_guard
              Example.isValidObjectId Schema.rule (Example.ctx JUndefined)
              (Example.archive_folder (JNum 12345)) (JNum 12345) Example.world)
    as (_ & Hrejected & _).
  - vm_compute; reflexivity.
  - discriminate.
  - destruct Hrejected as (e & w' & Hu & _ & _ & _ & He).
    + vm_compute; reflexivity.
    + unfold Example.updateAliasSettings. rewrite Hu. cbn [fst]. f_equal.
      apply (He Example.session Example.alias); reflexivity.
Defined.

Lemma page_size_validated_witness :
  (∃ e w',
     Example.updateAliasSettings
       (JObj (<["mail_messages_per_page" := JNum 30]> ∅)) Example.world
     = (inl e, w')
     ∧ client_error e = true ∧ aliases w' = aliases Example.world)
  ∧ (∀ n, n = 50%Z ∨ n = 100%Z →
     ∃ w' updated,
       Example.updateAliasSettings
         (JObj (<["mail_messages_per_page" := JNum n]> ∅)) Example.world
       = (inr (), w')
       ∧ lookup_alias w' (JStr Example.alias_id) = Some updated
       ∧ updated !! "mail_messages_per_page" = Some (JNum n)).
Proof.
  destruct (page_size_validated
              Example.isValidObjectId Schema.rule (Example.ctx JUndefined)
              ∅ Example.world Example.session Example.alias)
    as [H30 Hok].
  - intros v. reflexivity.
  - reflexivity.
  - reflexivity.
  - vm_compute; reflexivity.
  - intros k v _ _ Hk. by rewrite lookup_empty in Hk.
  - split; [|exact Hok]. apply H30. vm_compute; reflexivity.
Defined.

Lemma unknown_keys_ignored_witness :
  let m : Obj := {[ "appearance_theme" := JStr "dark" ]} in
  length ALIAS_SETTINGS_FIELDS = 14
  ∧ Example.updateAliasSettings (JObj (<["is_admin" := JBool true]> m))
                                Example.world
    = Example.updateAliasSettings (JObj (delete "is_admin" m)) Example.world.
Proof.
  cbn zeta.
  destruct (unknown_keys_ignored
              Example.isValidObjectId Schema.rule (Example.ctx JUndefined)
              {[ "appearance_theme" := JStr "dark" ]} "is_admin" (JBool true)
              Example.world)
    as (Hlen & Hsame & _).
  - not_field.
  - by split.
Defined.

(** C8, the claim as stated fails: with the alias of the session resolved
    and no record stored under it, [update] answers Unauthorized, not
    NotFound. *)
Lemma missing_alias_counterexample :
  Users.getAliasContext Example.isValidObjectId (Example.ctx (JObj ∅))
  = inr Example.session
  ∧ lookup_alias Example.world_without_alias (aliasId Example.session) = None
  ∧ (Example.update (JObj ∅) Example.world_without_alias).1
    = inl (Boom_unauthorized "SETTINGS_INVALID_ALIAS_ID")
  ∧ (Example.update (JObj ∅) Example.world_without_alias).1
    ≠ inl (Boom_notFound "ALIAS_DOES_NOT_EXIST").
Proof.
  split; [reflexivity|]. split; [reflexivity|].
  assert ((Example.update (JObj ∅) Example.world_without_alias).1
          = inl (Boom_unauthorized "SETTINGS_INVALID_ALIAS_ID")) as H
    by (vm_compute; reflexivity).
  split; [exact H|]. rewrite H. discriminate.
Qed.

Lemma missing_alias_errors_witness :
  (Users.retrieve Example.quota (Example.ctx (JObj ∅))
                  Example.world_without_alias).1
  = inl (Boom_notFound "ALIAS_DOES_NOT_EXIST")
  ∧ (Example.update (JObj ∅) Example.world_without_alias).1
    = inl (Boom_unauthorized "SETTINGS_INVALID_ALIAS_ID").
Proof.
  destruct (missing_alias_errors
              Example.isValidObjectId Schema.rule Example.quota
              "given_name" "family_name" Example.save_user
              (Example.ctx (JObj ∅)) Example.world_without_alias
              (JStr Example.alias_id))
    as (Hretrieve & _ & _ & Hupdate).
  - reflexivity.
  - reflexivity.
  - reflexivity.
  - split; [exact Hretrieve|].
    apply (Hupdate Example.session); reflexivity.
Defined.

(** C9, the claim as stated fails: the domain carries
    [max_quota_per_alias] = 0, and the payload's [storage_quota] is the
    global default, not 0. *)
Lemma zero_quota_counterexample :
  let payload := Example.payload_of (Example.retrieve Example.world_zero_quota) in
  (Example.retrieve Example.world_zero_quota).1 = inr (JObj payload)
  ∧ Example.domain_zero_quota !! "max_quota_per_alias" = Some (JNum 0)
  ∧ payload !! "storage_quota" = Some Example.quota
  ∧ payload !! "storage_quota" ≠ Some (JNum 0).
Proof.
  cbn zeta. split; [vm_compute; reflexivity|]. split; [reflexivity|].
  assert (Example.payload_of (Example.retrieve Example.world_zero_quota)
            !! "storage_quota" = Some Example.quota) as H
    by (vm_compute; reflexivity).
  split; [exact H|]. rewrite H. discriminate.
Qed.

Lemma storage_quota_rule_witness :
  let alias := populate_domain Example.world Example.alias in
  let payload :=
    default ∅ (Users.aliasAccountBody Example.quota (Example.ctx JUndefined)
                                      alias) in
  payload !! "storage_quota" =
  Some (let quota := opt_prop (get alias "domain") "max_quota_per_alias" in
        if truthy quota then quota else Example.quota).
Proof.
  cbn zeta.
  apply (storage_quota_rule Example.quota (Example.ctx JUndefined)).
  reflexivity.
Defined.

Lemma bodyless_update_witness :
  Users.updateAliasSettingsForContext
    Example.isValidObjectId Schema.rule (Example.ctx JNull) JNull
    Example.world
  = (inr (), logged Example.world
               [ EvFindById (JStr Example.alias_id);
                 EvSave Example.alias_id; EvWrite Example.alias_id ])
  ∧ ∃ payload,
      Example.update JNull Example.world
      = (inr (JObj payload),
         logged Example.world
           [ EvFindById (JStr Example.alias_id);
             EvSave Example.alias_id; EvWrite Example.alias_id;
             EvFindById (JStr Example.alias_id) ])
      ∧ Users.retrieve Example.quota (Example.ctx JNull) Example.world
        = (inr (JObj payload),
           logged Example.world [EvFindById (JStr Example.alias_id)])
      ∧ payload !! "object" = Some (JStr "alias")
      ∧ payload !! "appearance_theme" = Some (JStr "system")
      ∧ payload !! "shortcuts" = Some (JObj ∅).
Proof.
  destruct (bodyless_update
              Example.isValidObjectId Schema.rule Example.quota
              "given_name" "family_name" Example.save_user
              (Example.ctx JNull) JNull Example.world
              Example.session Example.alias Example.domain_id Example.domain)
    as (_ & _ & _ & Hrun & payload & Hupdate & Hretrieve & _ & Hobject
        & Hsettings & _).
  - right; left; reflexivity.
  - reflexivity.
  - reflexivity.
  - reflexivity.
  - reflexivity.
  - reflexivity.
  - reflexivity.
  - split; [exact Hrun|]. exists payload.
    split; [exact Hupdate|]. split; [exact Hretrieve|].
    split; [exact Hobject|]. split.
    + rewrite Hsettings; [vm_compute; reflexivity | is_field].
    + rewrite Hsettings; [vm_compute; reflexivity | is_field].
Defined.

(** ** Further properties of the controller *)

Section Coverage.

Variable isValidObjectId : JsValue → bool.
Variable validate_path : string → JsValue → bool.
Variable config_maxQuotaPerAlias : JsValue.
Variables givenName familyName : string.
Variable Users_save : Obj → Error + Obj.

Local Abbreviation invalid_paths := (Users.invalid_paths validate_path).
Local Abbreviation getAliasContext := (Users.getAliasContext isValidObjectId).
Local Abbreviation updateAliasSettingsForContext :=
  (Users.updateAliasSettingsForContext isValidObjectId validate_path).
Local Abbreviation aliasAccountBody :=
  (Users.aliasAccountBody config_maxQuotaPerAlias).
Local Abbreviation respondAlias := (Users.respondAlias config_maxQuotaPerAlias).
Local Abbreviation retrieve := (Users.retrieve config_maxQuotaPerAlias).
Local Abbreviation update :=
  (Users.update isValidObjectId validate_path config_maxQuotaPerAlias
                givenName familyName Users_save).

#[local] Opaque ALIAS_SETTINGS_FIELDS.

Lemma falsy_alias_id_of_falsy_user ctx :
  truthy (opt_prop (ctx_state ctx) "user") = false →
  truthy (ctx_alias_id ctx) = false.
Proof.
  unfold ctx_alias_id. by destruct (opt_prop (ctx_state ctx) "user").
Qed.

(** X1. When the session carries no usable alias identifier, the update
    stops with the Unauthorized error of [getAliasContext] before the
    persistence layer is called and whatever the body is: the error is
    SETTINGS_ALIAS_AUTH_REQUIRED exactly when the identifier is missing or
    falsy, and SETTINGS_INVALID_ALIAS_ID otherwise. *)
Theorem unresolved_session_stops_update ctx body w e :
  getAliasContext ctx = inl e →
  updateAliasSettingsForContext ctx body w = (inl e, w)
  ∧ status e = 401%Z
  ∧ (e = Boom_unauthorized "SETTINGS_ALIAS_AUTH_REQUIRED"
     ∨ e = Boom_unauthorized "SETTINGS_INVALID_ALIAS_ID")
  ∧ (e = Boom_unauthorized "SETTINGS_ALIAS_AUTH_REQUIRED"
     ↔ truthy (ctx_alias_id ctx) = false)
  ∧ (e = Boom_unauthorized "SETTINGS_INVALID_ALIAS_ID"
     → isValidObjectId (ctx_alias_id ctx) = false).
Proof.
  intros He. split.
  { by rewrite updateAliasSettingsForContext_run, He. }
  split; [by eapply getAliasContext_inl|].
  revert He. unfold Users.getAliasContext. fold (ctx_alias_id ctx).
  destruct (truthy (opt_prop (ctx_state ctx) "user")) eqn:Hu; cbn [negb orb].
  - destruct (truthy (ctx_alias_id ctx)) eqn:Ha; cbn [negb].
    + destruct (isValidObjectId (ctx_alias_id ctx)); cbn [negb]; [done|].
      intros [= <-]. split; [by right|]. split; [by split | done].
    + intros [= <-]. split; [by left|]. split; [by split | done].
  - apply falsy_alias_id_of_falsy_user in Hu.
    intros [= <-]. split; [by left|]. split; [by split | done].
Qed.

(** X2. With the alias resolved, a body that is truthy and not an object
    (true, a number other than 0, a string other than the empty one) is
    refused with the bad request INVALID_REQUEST_BODY before the alias is
    fetched: the store and the log of calls are as they were. *)
Theorem invalid_body_stops_update ctx body w ac :
  getAliasContext ctx = inr ac →
  truthy body = true →
  typeof body ≠ "object" →
  updateAliasSettingsForContext ctx body w
  = (inl (Boom_badRequest "INVALID_REQUEST_BODY"), w).
Proof.
  intros Hac Ht Hty. rewrite updateAliasSettingsForContext_run, Hac.
  cbn zeta. unfold invalid_body. rewrite Ht.
  destruct (String.eqb_spec (typeof body) "object"); done.
Qed.

Lemma own_of_falsy body : truthy body = false → own body = ∅.
Proof. by destruct body. Qed.

(** X3. A falsy body (undefined, null, false, 0, the empty string) and an
    array are taken as the empty payload: the update does exactly what it
    does on {}. *)
Theorem empty_payload_bodies ctx body w :
  truthy body = false ∨ (∃ l, body = JArr l) →
  updateAliasSettingsForContext ctx body w
  = updateAliasSettingsForContext ctx (JObj ∅) w.
Proof.
  intros Hbody.
  assert (own body = ∅) as Hown.
  { destruct Hbody as [?|[l ->]]; [by apply own_of_falsy | done]. }
  assert (invalid_body body = false) as Hvalid.
  { unfold invalid_body. destruct Hbody as [->|[l ->]]; done. }
  unfold Users.updateAliasSettingsForContext, pick.
  rewrite Hvalid, object_body_valid.
  by rewrite !pick_entries_empty.
Qed.

Lemma pick_keys_sublist (o : JsValue) paths :
  (pick_entries o paths).*1 `sublist_of` paths.
Proof.
  induction paths as [|p paths IH]; [done|].
  rewrite pick_entries_cons. destruct (own o !! p).
  - by apply sublist_skip.
  - by apply sublist_cons.
Qed.

Lemma defined_keys_sublist (entries : list (string * JsValue)) :
  (defined_entries entries).*1 `sublist_of` entries.*1.
Proof.
  induction entries as [|[k v] entries IH]; [done|].
  rewrite defined_keys_cons. destruct (is_undefined v).
  - by apply sublist_cons.
  - by apply sublist_skip.
Qed.

Lemma filter_is_set_set_events entries :
  List.filter is_set (set_events entries) = set_events entries.
Proof.
  unfold set_events. induction (defined_entries entries) as [|kv l IH]; [done|].
  cbn. by rewrite IH.
Qed.

Lemma filter_is_write_set_events entries :
  List.filter is_write (set_events entries) = [].
Proof.
  unfold set_events. by induction (defined_entries entries) as [|kv l IH].
Qed.

(** X4. An accepted update makes exactly these calls, in this order: one
    fetch of the session's alias, one [set] for each defined whitelisted
    field of the payload, each field once and in the order of the
    whitelist, one [save] and its one write, to the record of that alias.
    The set of stored aliases and the domains are as before. *)
Theorem accepted_update_calls ctx body w w' :
  updateAliasSettingsForContext ctx body w = (inr (), w') →
  ∃ calls,
    log w' = log w ++ calls
    ∧ calls = EvFindById (ctx_alias_id ctx)
              :: set_events (pick_entries body ALIAS_SETTINGS_FIELDS)
              ++ [EvSave (id_string (ctx_alias_id ctx));
                  EvWrite (id_string (ctx_alias_id ctx))]
    ∧ List.filter is_write calls = [EvWrite (id_string (ctx_alias_id ctx))]
    ∧ List.filter is_set calls
      = set_events (pick_entries body ALIAS_SETTINGS_FIELDS)
    ∧ (defined_entries (pick_entries body ALIAS_SETTINGS_FIELDS)).*1
      `sublist_of` ALIAS_SETTINGS_FIELDS
    ∧ NoDup (defined_entries (pick_entries body ALIAS_SETTINGS_FIELDS)).*1
    ∧ dom (aliases w') = dom (aliases w)
    ∧ domains w' = domains w.
Proof.
  intros (stored & Hs & _ & _ & Ha & Hd & Hl)%update_ok.
  eexists. split; [exact Hl|].
  assert ((defined_entries (pick_entries body ALIAS_SETTINGS_FIELDS)).*1
            `sublist_of` ALIAS_SETTINGS_FIELDS) as Hsub.
  { etrans; [apply defined_keys_sublist | apply pick_keys_sublist]. }
  split; [done|].
  split; [|split; [|split; [done|split; [|split; [|done]]]]].
  - cbn [List.filter is_write]. rewrite List.filter_app.
    by rewrite filter_is_write_set_events.
  - cbn [List.filter is_set]. rewrite List.filter_app.
    rewrite filter_is_set_set_events. cbn. by rewrite app_nil_r.
  - eapply sublist_NoDup; [apply ALIAS_SETTINGS_FIELDS_NoDup | exact Hsub].
  - rewrite Ha, dom_insert_L.
    apply lookup_alias_Some in Hs as [_ Hs].
    apply (elem_of_dom_2 (D := gset string)) in Hs.
    by apply subseteq_union_1_L, singleton_subseteq_l.
Qed.

Lemma updated_fields_applied body stored k :
  apply_fields (pick_entries body ALIAS_SETTINGS_FIELDS) stored !! k =
  match applied body k with Some v => Some v | None => stored !! k end.
Proof.
  rewrite updated_fields_lookup. unfold applied.
  destruct (own body !! k) as [v|]; [|done].
  destruct (decide (k ∈ ALIAS_SETTINGS_FIELDS)); [|done].
  by destruct (is_undefined v).
Qed.

Lemma apply_fields_idempotent body stored :
  let entries := pick_entries body ALIAS_SETTINGS_FIELDS in
  apply_fields entries (apply_fields entries stored)
  = apply_fields entries stored.
Proof.
  cbn zeta. apply map_eq. intros k. rewrite !updated_fields_applied.
  by destruct (applied body k).
Qed.

(** X5. Sending an accepted payload again is accepted again and changes
    nothing: the stored aliases and domains after the second update are
    those after the first. *)
Theorem update_idempotent ctx body w w1 :
  updateAliasSettingsForContext ctx body w = (inr (), w1) →
  ∃ w2,
    updateAliasSettingsForContext ctx body w1 = (inr (), w2)
    ∧ aliases w2 = aliases w1
    ∧ domains w2 = domains w1.
Proof.
  intros Hu.
  destruct (update_ok _ _ _ _ _ _ Hu) as (stored & Hs & Hb & Harch & Ha & Hd & _).
  pose proof (update_ok_lookup _ _ _ _ _ _ _ Hu Hs) as Hs1.
  assert (invalid_paths (updated_doc (ctx_alias_id ctx) stored body) = [])
    as Hvalid.
  { revert Hu. rewrite updateAliasSettingsForContext_run.
    destruct (getAliasContext ctx) as [e0|ac] eqn:Hac; [done|].
    apply getAliasContext_inr in Hac as (-> & _ & _). cbn zeta.
    rewrite Hb, Hs, Harch. by destruct (invalid_paths _). }
  rewrite updateAliasSettingsForContext_run.
  destruct (getAliasContext ctx) as [e0|ac] eqn:Hac.
  { revert Hu. by rewrite updateAliasSettingsForContext_run, Hac. }
  apply getAliasContext_inr in Hac as (-> & _ & _). cbn zeta.
  rewrite Hb, Hs1, Harch.
  assert (updated_doc (ctx_alias_id ctx)
            (apply_fields (pick_entries body ALIAS_SETTINGS_FIELDS) stored) body
          = updated_doc (ctx_alias_id ctx) stored body) as ->.
  { unfold updated_doc. by rewrite apply_fields_idempotent. }
  rewrite Hvalid. eexists. split; [done|]. cbn [aliases domains].
  split; [|done]. rewrite Ha. cbn [updated_doc doc_id doc_fields].
  apply insert_insert_eq.
Qed.

(** X6. Two accepted updates in a row compose field by field: a key holds
    the value the second payload applies to it, else the value the first
    applies, else what was stored. *)
Theorem successive_updates_compose ctx body1 body2 w w1 w2 stored :
  lookup_alias w (ctx_alias_id ctx) = Some stored →
  updateAliasSettingsForContext ctx body1 w = (inr (), w1) →
  updateAliasSettingsForContext ctx body2 w1 = (inr (), w2) →
  ∃ final,
    lookup_alias w2 (ctx_alias_id ctx) = Some final
    ∧ ∀ k, final !! k =
           match applied body2 k, applied body1 k with
           | Some v2, _ => Some v2
           | None, Some v1 => Some v1
           | None, None => stored !! k
           end.
Proof.
  intros Hs Hu1 Hu2.
  pose proof (update_ok_lookup _ _ _ _ _ _ _ Hu1 Hs) as Hs1.
  pose proof (update_ok_lookup _ _ _ _ _ _ _ Hu2 Hs1) as Hs2.
  eexists. split; [exact Hs2|]. intros k.
  rewrite !updated_fields_applied.
  by destruct (applied body2 k), (applied body1 k).
Qed.

(** X7. [serializeAliasSettings] serves only whitelisted keys, and always
    serves the three map settings as truthy values: what the record holds
    when that is truthy, the empty map when it holds nothing, null, false,
    0 or the empty string. *)
Theorem serialized_settings_shape alias k :
  (k ∉ ALIAS_SETTINGS_FIELDS → serializeAliasSettings alias !! k = None)
  ∧ (k ∈ map_settings →
     ∃ v, serializeAliasSettings alias !! k = Some v
          ∧ truthy v = true
          ∧ v = if truthy (get alias k) then get alias k else JObj ∅)
  ∧ (k ∈ ALIAS_SETTINGS_FIELDS → k ∉ map_settings →
     serializeAliasSettings alias !! k = alias !! k).
Proof.
  rewrite serializeAliasSettings_lookup. fold map_settings.
  split; [|split].
  - intros Hk. rewrite decide_False; [by rewrite decide_False|].
    intros Hm. apply Hk. revert Hm. unfold map_settings.
    rewrite !elem_of_cons.
    intros [->|[->|[->|?%elem_of_nil]]]; [is_field..|done].
  - intros Hk. rewrite decide_True by done.
    destruct (truthy (get alias k)) eqn:Ht.
    + exists (get alias k). split; [|by split].
      unfold get in *. by destruct (alias !! k).
    + by exists (JObj ∅).
  - intros Hk Hm. by rewrite decide_False, decide_True.
Qed.

Lemma serialized_outside_whitelist alias k :
  k ∉ ALIAS_SETTINGS_FIELDS → serializeAliasSettings alias !! k = None.
Proof.
  intros Hk. rewrite serializeAliasSettings_lookup. fold map_settings.
  rewrite decide_False; [by rewrite decide_False|].
  intros Hm. apply Hk. revert Hm. unfold map_settings.
  rewrite !elem_of_cons.
  intros [->|[->|[->|?%elem_of_nil]]]; [is_field..|done].
Qed.

Lemma serialized_map_truthy alias k :
  k ∈ map_settings →
  ∃ v, serializeAliasSettings alias !! k = Some v ∧ truthy v = true.
Proof.
  intros Hk. rewrite serializeAliasSettings_lookup. fold map_settings.
  rewrite decide_True by done.
  destruct (truthy (get alias k)) eqn:Ht.
  - exists (get alias k). split; [|done].
    unfold get in *. by destruct (alias !! k).
  - by exists (JObj ∅).
Qed.

Lemma account_body_lookup ctx alias payload k :
  aliasAccountBody ctx alias = Some payload →
  k ∉ ALIAS_SETTINGS_FIELDS →
  ∃ dn di,
    prop (get alias "domain") "name" = Some dn
    ∧ prop (get alias "domain") "id" = Some di
    ∧ payload !! k =
      (list_to_map
         [ ("id", get alias "id");
           ("object", JStr "alias");
           ("name", get alias "name");
           ("email", JStr (toString (get alias "name") +:+ "@"
                           +:+ toString dn));
           ("domain_id", di);
           ("domain_name", dn);
           ("storage_used", or_else (get alias "storage_used") (JNum 0));
           ("storage_quota",
            or_else (and_then (get alias "domain")
                       (opt_prop (get alias "domain") "max_quota_per_alias"))
                    config_maxQuotaPerAlias);
           ("has_imap", get alias "has_imap");
           ("has_pgp", get alias "has_pgp");
           ("public_key", get alias "public_key");
           ("locale", or_else (get alias "locale") (ctx_locale ctx));
           ("created_at", get alias "created_at");
           ("updated_at", get alias "updated_at") ] : Obj) !! k.
Proof.
  unfold Users.aliasAccountBody. cbn zeta.
  destruct (prop (get alias "domain") "name") as [dn|]; [|done].
  destruct (prop (get alias "domain") "id") as [di|]; [|done].
  cbn [mbind option_bind]. intros [= <-] Hk. exists dn, di.
  do 2 (split; [done|]). apply lookup_union_r.
  by apply serialized_outside_whitelist.
Qed.

(** X8. The account payload holds the fourteen properties the controller
    writes and the serialized settings, and nothing else: no other
    property of the stored alias, its user or its domain is served. *)
Theorem account_payload_keys ctx alias payload k :
  aliasAccountBody ctx alias = Some payload →
  (k ∈ account_keys → is_Some (payload !! k))
  ∧ (k ∉ account_keys → k ∉ ALIAS_SETTINGS_FIELDS → payload !! k = None)
  ∧ (k ∈ ALIAS_SETTINGS_FIELDS →
     payload !! k = serializeAliasSettings alias !! k).
Proof.
  intros Hp. split; [|split].
  - intros Hk.
    assert (k ∉ ALIAS_SETTINGS_FIELDS) as Hnf.
    { revert Hk. unfold account_keys. rewrite !elem_of_cons.
      intros Hk. repeat (destruct Hk as [->|Hk]; [not_field|]).
      by apply elem_of_nil in Hk. }
    destruct (account_body_lookup _ _ _ _ Hp Hnf) as (dn & di & _ & _ & ->).
    revert Hk. unfold account_keys. rewrite !elem_of_cons.
    intros Hk. repeat (destruct Hk as [->|Hk]; [by eexists|]).
    by apply elem_of_nil in Hk.
  - intros Hk Hnf.
    destruct (account_body_lookup _ _ _ _ Hp Hnf) as (dn & di & _ & _ & ->).
    apply not_elem_of_list_to_map_1. by cbn [fmap list_fmap fst].
  - intros Hk. by eapply aliasAccountBody_setting.
Qed.

Lemma prop_of_truthy_alias_id ctx :
  truthy (ctx_alias_id ctx) = true →
  prop (opt_prop (ctx_state ctx) "user") "alias_id" = Some (ctx_alias_id ctx).
Proof.
  unfold ctx_alias_id. generalize (opt_prop (ctx_state ctx) "user").
  intros u. unfold opt_prop. by destruct (prop u "alias_id").
Qed.

Lemma domain_missing_body ctx w alias :
  domain_missing w alias →
  aliasAccountBody ctx (populate_domain w alias) = None.
Proof.
  intros Hm. unfold Users.aliasAccountBody. cbn zeta.
  assert (get (populate_domain w alias) "domain" = JUndefined
          ∨ get (populate_domain w alias) "domain" = JNull) as [-> | ->];
    [|done..].
  unfold populate_domain, get. destruct Hm as [Hm|(d & Hm & Hd)]; rewrite Hm.
  - left. by rewrite Hm.
  - right. by rewrite Hd, lookup_insert_eq.
Qed.

(** X9. In an alias session, when the stored alias names no domain or a
    domain that is not stored, [retrieve] does not answer NotFound or an
    empty domain: reading [alias.domain.name] throws a TypeError, a server
    error.  The store is left as it was. *)
Theorem retrieve_without_domain ctx w alias :
  alias_session ctx = true →
  lookup_alias w (ctx_alias_id ctx) = Some alias →
  truthy (ctx_alias_id ctx) = true →
  domain_missing w alias →
  (retrieve ctx w).1 = inl TypeError
  ∧ status TypeError = 500%Z
  ∧ aliases (retrieve ctx w).2 = aliases w
  ∧ domains (retrieve ctx w).2 = domains w.
Proof.
  intros Hsess Hs Ht Hm. unfold Users.retrieve. rewrite Hsess, respondAlias_run.
  rewrite (prop_of_truthy_alias_id _ Ht).
  rewrite Hs, domain_missing_body by done. done.
Qed.

(** X10. [update] is not atomic with respect to its answer: when the
    stored alias has no domain to populate, an accepted payload is saved
    first and the response then fails with a TypeError.  The caller is
    answered a server error although the fields have been stored. *)
Theorem update_fails_after_write ctx w w1 stored :
  alias_session ctx = true →
  lookup_alias w (ctx_alias_id ctx) = Some stored →
  domain_missing w stored →
  updateAliasSettingsForContext ctx (ctx_request_body ctx) w = (inr (), w1) →
  (update ctx w).1 = inl TypeError
  ∧ aliases (update ctx w).2 = aliases w1
  ∧ lookup_alias (update ctx w).2 (ctx_alias_id ctx)
    = Some (apply_fields
              (pick_entries (ctx_request_body ctx) ALIAS_SETTINGS_FIELDS)
              stored).
Proof.
  intros Hsess Hs Hm Hu.
  pose proof (update_ok_lookup _ _ _ _ _ _ _ Hu Hs) as Hs1.
  destruct (update_ok _ _ _ _ _ _ Hu) as (_ & _ & _ & _ & _ & Hd & _).
  assert (domain_missing w1
            (apply_fields
               (pick_entries (ctx_request_body ctx) ALIAS_SETTINGS_FIELDS)
               stored)) as Hm1.
  { assert (∀ v, applied (ctx_request_body ctx) "domain" = Some v → False)
      as Hna.
    { unfold applied. destruct (own _ !! "domain"); [|done].
      by rewrite decide_False by not_field. }
    unfold domain_missing. rewrite updated_fields_applied, Hd.
    destruct (applied (ctx_request_body ctx) "domain") as [v|] eqn:Hv;
      [by destruct (Hna v) | exact Hm]. }
  assert (truthy (ctx_alias_id ctx) = true) as Ht.
  { revert Hu. rewrite updateAliasSettingsForContext_run.
    destruct (getAliasContext ctx) as [e0|ac] eqn:Hac; [done|].
    by apply getAliasContext_inr in Hac as (_ & ? & _). }
  unfold Users.update. rewrite Hsess. unfold bind. rewrite Hu.
  rewrite respondAlias_run.
  rewrite (prop_of_truthy_alias_id _ Ht).
  rewrite Hs1, domain_missing_body by done. cbn [fst snd].
  split; [done|]. split; [done|].
  by rewrite lookup_alias_logged.
Qed.

(** X11. For a stored alias with a string name whose domain is stored
    with a string name, [retrieve] answers a payload with object "alias",
    the alias's name, the email name@domain, and the domain's name and
    id.  Of the domain only id, name, plan and max_quota_per_alias are
    read. *)
Theorem retrieve_identity ctx w alias name d domain domain_name :
  alias_session ctx = true →
  truthy (ctx_alias_id ctx) = true →
  lookup_alias w (ctx_alias_id ctx) = Some alias →
  alias !! "name" = Some (JStr name) →
  alias !! "domain" = Some (JStr d) →
  domains w !! d = Some domain →
  domain !! "name" = Some (JStr domain_name) →
  ∃ payload,
    retrieve ctx w
    = (inr (JObj payload), logged w [EvFindById (ctx_alias_id ctx)])
    ∧ payload !! "object" = Some (JStr "alias")
    ∧ payload !! "name" = Some (JStr name)
    ∧ payload !! "email" = Some (JStr (name +:+ "@" +:+ domain_name))
    ∧ payload !! "domain_name" = Some (JStr domain_name)
    ∧ payload !! "domain_id" = Some (get domain "id").
Proof.
  intros Hsess Ht Hs Hname Hdom Hd Hdn.
  unfold Users.retrieve. rewrite Hsess, respondAlias_run.
  rewrite (prop_of_truthy_alias_id _ Ht).
  rewrite Hs.
  assert (get (populate_domain w alias) "domain"
          = JObj (pick (JObj domain) domain_projection)) as Hpd.
  { unfold populate_domain, get. by rewrite Hdom, Hd, lookup_insert_eq. }
  assert (get (populate_domain w alias) "name" = JStr name) as Hpn.
  { unfold get. by rewrite populate_domain_lookup, Hname. }
  assert (prop (get (populate_domain w alias) "domain") "name"
          = Some (JStr domain_name)) as Hn.
  { rewrite Hpd. cbn [prop]. unfold get. rewrite pick_lookup.
    rewrite decide_True by (unfold domain_projection; in_list).
    cbn [own]. by rewrite Hdn. }
  assert (prop (get (populate_domain w alias) "domain") "id"
          = Some (get domain "id")) as Hi.
  { rewrite Hpd. cbn [prop]. unfold get. rewrite pick_lookup.
    by rewrite decide_True by (unfold domain_projection; in_list). }
  destruct (aliasAccountBody ctx (populate_domain w alias)) as [payload|] eqn:Hp.
  2:{ exfalso. revert Hp. unfold Users.aliasAccountBody. cbn zeta.
      by rewrite Hn, Hi. }
  exists payload. split; [done|].
  assert (∀ k, k ∉ ALIAS_SETTINGS_FIELDS → _) as Hl
    by (intros k Hk; exact (account_body_lookup _ _ _ k Hp Hk)).
  repeat split.
  - destruct (Hl "object") as (dn & di & _ & _ & ->); [not_field | done].
  - destruct (Hl "name") as (dn & di & _ & _ & ->); [not_field|].
    by rewrite Hpn.
  - destruct (Hl "email") as (dn & di & Hdn' & _ & ->); [not_field|].
    rewrite Hn in Hdn'. injection Hdn' as <-. by rewrite Hpn.
  - destruct (Hl "domain_name") as (dn & di & Hdn' & _ & ->); [not_field|].
    rewrite Hn in Hdn'. by injection Hdn' as <-.
  - destruct (Hl "domain_id") as (dn & di & _ & Hdi' & ->); [not_field|].
    rewrite Hi in Hdi'. by injection Hdi' as <-.
Qed.

(** X12. In the account payload, [storage_used] is the stored value when
    that is truthy and 0 when it is absent, null or 0; [locale] is the
    alias's locale when that is truthy and the locale of the request
    otherwise. *)
Theorem account_payload_fallbacks ctx alias payload :
  aliasAccountBody ctx alias = Some payload →
  payload !! "storage_used"
  = Some (if truthy (get alias "storage_used")
          then get alias "storage_used" else JNum 0)
  ∧ payload !! "locale"
    = Some (if truthy (get alias "locale")
            then get alias "locale" else ctx_locale ctx).
Proof.
  intros Hp. split.
  - destruct (account_body_lookup _ _ _ "storage_used" Hp)
      as (dn & di & _ & _ & ->); [not_field | done].
  - destruct (account_body_lookup _ _ _ "locale" Hp)
      as (dn & di & _ & _ & ->); [not_field | done].
Qed.

(** X13. [retrieve] only reads: whatever the context and the store, the
    aliases and domains are left as they were, at most one fetch is made
    and nothing is set, saved or written; a user session makes no call at
    all. *)
Theorem retrieve_reads_only ctx w :
  aliases (retrieve ctx w).2 = aliases w
  ∧ domains (retrieve ctx w).2 = domains w
  ∧ (∃ calls,
       log (retrieve ctx w).2 = log w ++ calls
       ∧ (calls = [] ∨ ∃ id, calls = [EvFindById id])
       ∧ (alias_session ctx = false → calls = [])).
Proof.
  unfold Users.retrieve. destruct (alias_session ctx) eqn:Hsess.
  - rewrite respondAlias_run.
    destruct (prop _ "alias_id") as [id|].
    2:{ do 2 (split; [done|]). exists []. by rewrite app_nil_r; auto. }
    destruct (lookup_alias w id) as [alias|].
    2:{ do 2 (split; [done|]). exists [EvFindById id]. split; [done|].
        split; [by right; exists id | done]. }
    destruct (aliasAccountBody _ _);
      (do 2 (split; [done|])); exists [EvFindById id]; (split; [done|]);
      (split; [by right; exists id | done]).
  - assert (∀ A (o : option A), (read o w).2 = w) as Hr
      by (by intros A [a|]).
    rewrite Hr. do 2 (split; [done|]). exists []. by rewrite app_nil_r; auto.
Qed.




Lemma served_setting w alias k :
  k ∈ ALIAS_SETTINGS_FIELDS →
  serializeAliasSettings (populate_domain w alias) !! k
  = serializeAliasSettings alias !! k.
Proof.
  intros Hk.
  assert (k ≠ "domain") as Hd by (intros ->; revert Hk; not_field).
  rewrite !serializeAliasSettings_lookup. unfold get.
  by rewrite !populate_domain_lookup.
Qed.

(** X15. The answer of an accepted [update] in an alias session echoes
    the payload: each whitelisted field the payload carries with a defined
    value is served with that value (a falsy value for one of the three
    map settings is served as the empty map), and every other settings
    field is served as [retrieve] served it before the update. *)
Theorem update_response_echoes ctx w w' payload :
  alias_session ctx = true →
  update ctx w = (inr (JObj payload), w') →
  (∀ k v, applied (ctx_request_body ctx) k = Some v →
          payload !! k =
          Some (if decide (k ∈ map_settings)
                then if truthy v then v else JObj ∅
                else v))
  ∧ (∀ k before w0,
       k ∈ ALIAS_SETTINGS_FIELDS →
       applied (ctx_request_body ctx) k = None →
       retrieve ctx w = (inr (JObj before), w0) →
       payload !! k = before !! k).
Proof.
  intros Hsess. unfold Users.update. rewrite Hsess. unfold bind.
  destruct (updateAliasSettingsForContext ctx (ctx_request_body ctx) w)
    as [[e|u] w1] eqn:Hu; [done|]. destruct u.
  destruct (update_ok _ _ _ _ _ _ Hu) as (stored & Hs & _).
  pose proof (update_ok_lookup _ _ _ _ _ _ _ Hu Hs) as Hs1.
  assert (truthy (ctx_alias_id ctx) = true) as Ht.
  { revert Hu. rewrite updateAliasSettingsForContext_run.
    destruct (getAliasContext ctx) as [e0|ac] eqn:Hac; [done|].
    by apply getAliasContext_inr in Hac as (_ & ? & _). }
  rewrite respondAlias_run, (prop_of_truthy_alias_id _ Ht), Hs1.
  destruct (aliasAccountBody ctx _) as [body|] eqn:Hb; [|done].
  intros [= -> _]. split.
  - intros k v Hv.
    assert (k ∈ ALIAS_SETTINGS_FIELDS) as Hk.
    { revert Hv. unfold applied. destruct (own _ !! k); [|done].
      by destruct (decide (k ∈ ALIAS_SETTINGS_FIELDS)). }
    rewrite (aliasAccountBody_setting _ _ _ _ _ Hb Hk), served_setting by done.
    rewrite serializeAliasSettings_lookup. fold map_settings. unfold get.
    rewrite updated_fields_applied, Hv. cbn [default from_option id].
    destruct (decide (k ∈ map_settings)); [|by rewrite decide_True].
    by destruct (truthy v).
  - intros k before w0 Hk Hnone. unfold Users.retrieve.
    rewrite Hsess, respondAlias_run, (prop_of_truthy_alias_id _ Ht), Hs.
    destruct (aliasAccountBody ctx (populate_domain w stored))
      as [body0|] eqn:Hb0; [|done].
    intros [= -> _].
    rewrite (aliasAccountBody_setting _ _ _ _ _ Hb Hk).
    rewrite (aliasAccountBody_setting _ _ _ _ _ Hb0 Hk).
    rewrite !served_setting by done.
    rewrite !serializeAliasSettings_lookup. unfold get.
    by rewrite updated_fields_applied, Hnone.
Qed.

(** X18. The answer of an accepted [update] in an alias session is what a
    [retrieve] made right after it answers: the payload is assembled from
    the record as saved. *)
Theorem retrieve_after_update ctx w w' payload :
  alias_session ctx = true →
  update ctx w = (inr (JObj payload), w') →
  (retrieve ctx w').1 = inr (JObj payload).
Proof.
  intros Hsess. unfold Users.update, Users.retrieve. rewrite Hsess.
  unfold bind.
  destruct (updateAliasSettingsForContext ctx (ctx_request_body ctx) w)
    as [[e|u] w1]; [done|].
  intros Hr.
  assert (aliases w' = aliases w1 ∧ domains w' = domains w1) as [Ha Hd].
  { revert Hr. rewrite respondAlias_run.
    destruct (prop _ "alias_id"); [|done].
    destruct (lookup_alias w1 _); [|done].
    destruct (aliasAccountBody ctx _); [|done]. by intros [= _ <-]. }
  rewrite (respondAlias_outcome_ext _ _ w' w1) by done. by rewrite Hr.
Qed.

(** X19. An alias session whose context carries no user is answered
    differently by the two operations: [update] answers Unauthorized
    (SETTINGS_ALIAS_AUTH_REQUIRED), whereas [retrieve], which reads
    [ctx.state.user.alias_id] unguarded, throws a TypeError.  Neither
    calls the persistence layer. *)
Theorem session_without_user ctx w :
  alias_session ctx = true →
  Js.is_undefined (opt_prop (ctx_state ctx) "user")
  || is_null (opt_prop (ctx_state ctx) "user") = true →
  retrieve ctx w = (inl TypeError, w)
  ∧ update ctx w
    = (inl (Boom_unauthorized "SETTINGS_ALIAS_AUTH_REQUIRED"), w).
Proof.
  intros Hsess Hu. split.
  - unfold Users.retrieve. rewrite Hsess, respondAlias_run.
    by destruct (opt_prop (ctx_state ctx) "user").
  - unfold Users.update. rewrite Hsess. unfold bind.
    rewrite updateAliasSettingsForContext_run. unfold Users.getAliasContext.
    by destruct (opt_prop (ctx_state ctx) "user").
Qed.

(** X20. In a user session, [update] throws a TypeError, without calling
    [save], when the request has no body (undefined or null) or the
    context carries no user document. *)
Theorem update_user_session_type_errors ctx w :
  alias_session ctx = false →
  Js.is_undefined (ctx_request_body ctx) || is_null (ctx_request_body ctx)
  = true
  ∨ (∀ user, opt_prop (ctx_state ctx) "user" ≠ JObj user) →
  update ctx w = (inl TypeError, w).
Proof.
  intros Hsess Hcase. unfold Users.update. rewrite Hsess.
  destruct Hcase as [Hb|Hu].
  - by destruct (ctx_request_body ctx).
  - destruct (opt_prop (ctx_state ctx) "user") as [| | | | | |user] eqn:E;
      try (by destruct (ctx_request_body ctx)).
    by destruct (Hu user).
Qed.

(** X21. Serializing is idempotent: the serialized settings, serialized
    again, are themselves. *)
Theorem serializeAliasSettings_idempotent alias :
  serializeAliasSettings (serializeAliasSettings alias)
  = serializeAliasSettings alias.
Proof.
  apply map_eq. intros k.
  rewrite (serializeAliasSettings_lookup (serializeAliasSettings alias)).
  fold map_settings.
  destruct (decide (k ∈ map_settings)) as [Hk|Hk].
  - destruct (serialized_map_truthy alias k Hk) as (v & Hv & Ht).
    by rewrite (get_lookup _ _ _ Hv), Ht.
  - destruct (decide (k ∈ ALIAS_SETTINGS_FIELDS)) as [|Hn]; [done|].
    by rewrite serialized_outside_whitelist.
Qed.

End Coverage.

(** ** Properties of the registration *)


Section RegistrationProperties.

Variable isSANB : JsValue → bool.
Variables hasVerifiedEmail hasSetPassword pendingRecovery : string.
Variables lastLocaleField apiToken : string.
Variable Users_register : Obj → JsValue → Error + Obj.
Variable sendVerificationEmail : Ctx → Error + Obj.
Variable toObject : Obj → Obj.

Local Abbreviation register_query :=
  (Users.register_query hasVerifiedEmail hasSetPassword pendingRecovery
                        lastLocaleField).
Local Abbreviation create :=
  (Users.create isSANB hasVerifiedEmail hasSetPassword pendingRecovery
                lastLocaleField apiToken Users_register sendVerificationEmail
                toObject).

(** X16. [create] makes no call at all exactly when it is stopped by one
    of its two guards: a request without a body (undefined or null), where
    reading [body.password] throws a TypeError, and a password that is
    not a non-blank string, which is refused with the bad request
    INVALID_PASSWORD.  Nothing is registered and no email is sent. *)
Theorem create_guards ctx :
  ((create ctx).2 = [] ↔
     prop (ctx_request_body ctx) "password" = None
     ∨ ∃ p, prop (ctx_request_body ctx) "password" = Some p
            ∧ isSANB p = false)
  ∧ (prop (ctx_request_body ctx) "password" = None ↔
       Js.is_undefined (ctx_request_body ctx) || is_null (ctx_request_body ctx)
       = true)
  ∧ (prop (ctx_request_body ctx) "password" = None →
       create ctx = (inl TypeError, []))
  ∧ (∀ p, prop (ctx_request_body ctx) "password" = Some p →
          isSANB p = false →
          create ctx = (inl (Boom_badRequest "INVALID_PASSWORD"), [])).
Proof.
  split; [|split; [|split]].
  - unfold Users.create.
    destruct (prop (ctx_request_body ctx) "password") as [password|] eqn:Hp;
      [|by split; [left|]].
    destruct (isSANB password) eqn:Hb; cbn [negb].
    + split; [|by intros [?|(p & [= <-] & ?)]; congruence].
      destruct (Users_register _ password); [done|].
      destruct (ctx_state ctx); try done.
      destruct (truthy _); cbn [negb]; [done|].
      by destruct (sendVerificationEmail _).
    + split; [|done]. intros _. right. by exists password.
  - by destruct (ctx_request_body ctx).
  - intros Hp. unfold Users.create. by rewrite Hp.
  - intros p Hp Hb. unfold Users.create. by rewrite Hp, Hb.
Qed.



End RegistrationProperties.

(** ** The further properties on the concrete store *)

Lemma unresolved_session_stops_update_witness :
  Users.updateAliasSettingsForContext
    Example.isValidObjectId Schema.rule
    (Example.ctx_without_user JUndefined) Example.falsy_fields Example.world
  = (inl (Boom_unauthorized "SETTINGS_ALIAS_AUTH_REQUIRED"), Example.world).
Proof.
  apply (unresolved_session_stops_update
           Example.isValidObjectId Schema.rule
           (Example.ctx_without_user JUndefined) Example.falsy_fields
           Example.world).
  reflexivity.
Defined.

Lemma invalid_body_stops_update_witness :
  Example.updateAliasSettings (JStr "dark") Example.world
  = (inl (Boom_badRequest "INVALID_REQUEST_BODY"), Example.world).
Proof.
  apply (invalid_body_stops_update
           Example.isValidObjectId Schema.rule (Example.ctx JUndefined)
           (JStr "dark") Example.world Example.session).
  - reflexivity.
  - reflexivity.
  - discriminate.
Defined.

Lemma empty_payload_bodies_witness :
  Example.updateAliasSettings (JNum 0) Example.world
  = Example.updateAliasSettings (JObj ∅) Example.world.
Proof.
  apply (empty_payload_bodies
           Example.isValidObjectId Schema.rule (Example.ctx JUndefined)
           (JNum 0) Example.world).
  left. reflexivity.
Defined.

Lemma accepted_update_calls_witness :
  let w' := (Example.updateAliasSettings Example.falsy_fields
                                         Example.world).2 in
  ∃ calls,
    log w' = log Example.world ++ calls
    ∧ List.filter is_write calls = [EvWrite Example.alias_id]
    ∧ dom (aliases w') = dom (aliases Example.world).
Proof.
  cbn zeta.
  destruct (accepted_update_calls
              Example.isValidObjectId Schema.rule (Example.ctx JUndefined)
              Example.falsy_fields Example.world
              (Example.updateAliasSettings Example.falsy_fields
                                           Example.world).2)
    as (calls & Hlog & _ & Hwrite & _ & _ & _ & Hdom & _).
  - vm_compute; reflexivity.
  - exists calls. split; [exact Hlog|]. split; [exact Hwrite | exact Hdom].
Defined.

Lemma update_idempotent_witness :
  let w1 := (Example.updateAliasSettings Example.falsy_fields
                                         Example.world).2 in
  ∃ w2,
    Example.updateAliasSettings Example.falsy_fields w1 = (inr (), w2)
    ∧ aliases w2 = aliases w1
    ∧ domains w2 = domains w1.
Proof.
  cbn zeta.
  apply (update_idempotent
           Example.isValidObjectId Schema.rule (Example.ctx JUndefined)
           Example.falsy_fields Example.world).
  vm_compute; reflexivity.
Defined.

Lemma successive_updates_compose_witness :
  let body1 := Example.labels Example.label_work in
  let body2 := Example.falsy_fields in
  let w1 := (Example.updateAliasSettings body1 Example.world).2 in
  let w2 := (Example.updateAliasSettings body2 w1).2 in
  ∃ final,
    lookup_alias w2 (JStr Example.alias_id) = Some final
    ∧ ∀ k, final !! k =
           match applied body2 k, applied body1 k with
           | Some v2, _ => Some v2
           | None, Some v1 => Some v1
           | None, None => Example.alias !! k
           end.
Proof.
  cbn zeta.
  apply (successive_updates_compose
           Example.isValidObjectId Schema.rule (Example.ctx JUndefined)
           (Example.labels Example.label_work) Example.falsy_fields
           Example.world
           (Example.updateAliasSettings
              (Example.labels Example.label_work) Example.world).2
           (Example.updateAliasSettings Example.falsy_fields
              (Example.updateAliasSettings
                 (Example.labels Example.label_work) Example.world).2).2).
  - reflexivity.
  - vm_compute; reflexivity.
  - vm_compute; reflexivity.
Defined.

Lemma account_payload_keys_witness :
  let alias := populate_domain Example.world Example.alias in
  let payload :=
    default ∅ (Users.aliasAccountBody Example.quota (Example.ctx JUndefined)
                                      alias) in
  ("domain" ∈ account_keys → is_Some (payload !! "domain"))
  ∧ ("domain" ∉ account_keys → "domain" ∉ ALIAS_SETTINGS_FIELDS →
     payload !! "domain" = None)
  ∧ ("domain" ∈ ALIAS_SETTINGS_FIELDS →
     payload !! "domain" = serializeAliasSettings alias !! "domain").
Proof.
  cbn zeta.
  apply (account_payload_keys Example.quota (Example.ctx JUndefined)).
  reflexivity.
Defined.

Lemma retrieve_without_domain_witness :
  (Users.retrieve Example.quota (Example.ctx JUndefined)
                  Example.world_without_domain).1 = inl TypeError.
Proof.
  apply (retrieve_without_domain
           Example.quota (Example.ctx JUndefined)
           Example.world_without_domain Example.alias).
  - reflexivity.
  - reflexivity.
  - reflexivity.
  - right. exists Example.domain_id. split; reflexivity.
Defined.

Lemma update_fails_after_write_witness :
  let run := Example.update Example.falsy_fields Example.world_without_domain in
  run.1 = inl TypeError
  ∧ aliases run.2
    = aliases (Example.updateAliasSettings Example.falsy_fields
                                           Example.world_without_domain).2.
Proof.
  cbn zeta.
  destruct (update_fails_after_write
              Example.isValidObjectId Schema.rule Example.quota
              "given_name" "family_name" Example.save_user
              (Example.ctx Example.falsy_fields) Example.world_without_domain
              (Example.updateAliasSettings Example.falsy_fields
                                           Example.world_without_domain).2
              Example.alias)
    as (Herr & Hstore & _).
  - reflexivity.
  - reflexivity.
  - right. exists Example.domain_id. split; reflexivity.
  - vm_compute; reflexivity.
  - split; [exact Herr | exact Hstore].
Defined.

Lemma retrieve_identity_witness :
  ∃ payload,
    Example.retrieve Example.world
    = (inr (JObj payload),
       logged Example.world [EvFindById (JStr Example.alias_id)])
    ∧ payload !! "object" = Some (JStr "alias")
    ∧ payload !! "name" = Some (JStr "hello")
    ∧ payload !! "email" = Some (JStr "hello@example.com")
    ∧ payload !! "domain_name" = Some (JStr "example.com")
    ∧ payload !! "domain_id" = Some (JStr Example.domain_id).
Proof.
  apply (retrieve_identity
           Example.quota (Example.ctx JUndefined) Example.world Example.alias
           "hello" Example.domain_id Example.domain "example.com");
    reflexivity.
Defined.

Lemma account_payload_fallbacks_witness :
  let alias := populate_domain Example.world Example.alias in
  let payload :=
    default ∅ (Users.aliasAccountBody Example.quota (Example.ctx JUndefined)
                                      alias) in
  payload !! "storage_used" = Some (JNum 0)
  ∧ payload !! "locale" = Some (JStr "en").
Proof.
  cbn zeta.
  apply (account_payload_fallbacks Example.quota (Example.ctx JUndefined)
           (populate_domain Example.world Example.alias)).
  reflexivity.
Defined.


Lemma update_response_echoes_witness :
  let payload :=
    Example.payload_of (Example.update Example.falsy_fields Example.world) in
  payload !! "search_body_indexing" = Some (JBool false)
  ∧ payload !! "aliases_defaults" = Some (JObj ∅)
  ∧ payload !! "prefetch_folders" = Some (JArr []).
Proof.
  cbn zeta.
  destruct (update_response_echoes
              Example.isValidObjectId Schema.rule Example.quota
              "given_name" "family_name" Example.save_user
              (Example.ctx Example.falsy_fields) Example.world
              (Example.update Example.falsy_fields Example.world).2
              (Example.payload_of
                 (Example.update Example.falsy_fields Example.world)))
    as (Hecho & _).
  - reflexivity.
  - vm_compute; reflexivity.
  - split; [|split].
    + apply (Hecho "search_body_indexing" (JBool false)). reflexivity.
    + apply (Hecho "aliases_defaults" (JObj ∅)). reflexivity.
    + apply (Hecho "prefetch_folders" (JArr [])). reflexivity.
Defined.

Lemma retrieve_after_update_witness :
  let run := Example.update Example.falsy_fields Example.world in
  (Users.retrieve Example.quota (Example.ctx Example.falsy_fields) run.2).1
  = inr (JObj (Example.payload_of run)).
Proof.
  cbn zeta.
  apply (retrieve_after_update
           Example.isValidObjectId Schema.rule Example.quota
           "given_name" "family_name" Example.save_user
           (Example.ctx Example.falsy_fields) Example.world
           (Example.update Example.falsy_fields Example.world).2).
  - reflexivity.
  - vm_compute; reflexivity.
Defined.

Lemma session_without_user_witness :
  Users.retrieve Example.quota (Example.ctx_without_user (JObj ∅))
                 Example.world
  = (inl TypeError, Example.world)
  ∧ Users.update Example.isValidObjectId Schema.rule Example.quota
                 "given_name" "family_name" Example.save_user
                 (Example.ctx_without_user (JObj ∅)) Example.world
    = (inl (Boom_unauthorized "SETTINGS_ALIAS_AUTH_REQUIRED"), Example.world).
Proof.
  apply (session_without_user
           Example.isValidObjectId Schema.rule Example.quota
           "given_name" "family_name" Example.save_user
           (Example.ctx_without_user (JObj ∅)) Example.world);
    reflexivity.
Defined.

Lemma update_user_session_type_errors_witness :
  Users.update Example.isValidObjectId Schema.rule Example.quota
               "given_name" "family_name" Example.save_user
               (Example.user_ctx JNull) Example.world
  = (inl TypeError, Example.world).
Proof.
  apply (update_user_session_type_errors
           Example.isValidObjectId Schema.rule Example.quota
           "given_name" "family_name" Example.save_user
           (Example.user_ctx JNull) Example.world).
  - reflexivity.
  - left. reflexivity.
Defined.

(** A registration that goes through: the user is registered, being
    unverified is sent the verification email, and is answered. *)
Example create_registers_and_sends :
  let r := Example.create (Example.registration (JStr "correct horse")) in
  length r.2 = 2
  ∧ ∃ user, r.1 = inr (JObj user)
            ∧ user !! "email" = Some (JStr "ada@example.com")
            ∧ user !! "has_set_password" = Some (JBool true)
            ∧ user !! "has_verified_email" = Some (JBool false).
Proof.
  cbn zeta. split; [reflexivity|].
  eexists. split; [reflexivity|]. by vm_compute.
Qed.
